(** * geolocate.py: a shallow embedding of the record aggregator

    The script [src/Script/geolocate.py] resolves a list of IP addresses
    against a GeoLite2-City database, filters and groups the records it
    finds, sorts the groups and prints a report.  This file embeds the
    three functions that carry the logic ([read_record], [get_records],
    [main]) together with the parts of Python they rely on: exceptions,
    ordered dictionaries, list slicing, [sorted], string formatting of
    integers and floats, and a fragment of the [re] module.

    Strings are [string]s of bytes (the UTF-8 encoding of the Python text);
    byte-wise lexicographic order coincides with Python's code-point order. *)

From Stdlib Require Import List String Ascii ZArith NArith Lia Bool.
From Stdlib Require Import DecimalString Permutation Sorted.
Import ListNotations.
Open Scope string_scope.

Set Implicit Arguments.

(* ================================================================== *)
(** * Python values and builtins used by the script *)
(* ================================================================== *)

Module Py.

(** Exceptions that can travel through the script. *)
Inductive exn : Type :=
| AddressNotFoundError (msg : string)   (* geoip2.errors.AddressNotFoundError *)
| ValueError (msg : string)             (* malformed address text *)
| IndexError                            (* list index out of range *)
| TypeError                             (* '<' between int and str *)
| AttributeError                        (* attribute access on None *)
| OtherError (msg : string).            (* anything else, e.g. a broken database *)

(** A computation either returns or raises. *)
Inductive result (A : Type) : Type :=
| Ok (a : A)
| Raise (e : exn).
Arguments Ok {A} a.
Arguments Raise {A} e.

Definition bind {A B} (m : result A) (f : A -> result B) : result B :=
  match m with
  | Ok a => f a
  | Raise e => Raise e
  end.

(** Text of an exception, as [print] shows it. *)
Definition str_exn (e : exn) : string :=
  match e with
  | AddressNotFoundError m | ValueError m | OtherError m => m
  | IndexError => "list index out of range"
  | TypeError => "'<' not supported between instances of 'str' and 'int'"
  | AttributeError => "'NoneType' object has no attribute 'is_file'"
  end.

(** ** Truthiness *)

Definition truthy_str (s : string) : bool :=
  match s with EmptyString => false | String _ _ => true end.

Definition truthy_opt {A} (truthy : A -> bool) (o : option A) : bool :=
  match o with Some a => truthy a | None => false end.

(** ** [x in list] for strings *)

Definition contains (l : list string) (x : string) : bool :=
  existsb (String.eqb x) l.

(** ** [any] *)

Definition any (l : list bool) : bool := existsb (fun b => b) l.

(** ** [str(int)] *)

Definition str_int (n : Z) : string := NilZero.string_of_int (Z.to_int n).

(** ** Floats

    A finite double is [mant * 2 ^ expo]; infinities and NaN do not occur
    as coordinates.  Both zeros are the value with [mant = 0]. *)

Record float : Type := { mant : Z; expo : Z }.

Definition truthy_float (x : float) : bool := negb (mant x =? 0)%Z.

(** Nearest integer to [num / den], ties to even ([0 <= num], [0 < den]). *)
Definition round_half_even (num den : Z) : Z :=
  let q := (num / den)%Z in
  let r := (num mod den)%Z in
  if (2 * r <? den)%Z then q
  else if (den <? 2 * r)%Z then (q + 1)%Z
  else if Z.even q then q else (q + 1)%Z.

(** [|x| * 10 ^ prec], correctly rounded. *)
Definition scaled (prec : nat) (x : float) : Z :=
  let a := Z.abs (mant x) in
  let p := (10 ^ Z.of_nat prec)%Z in
  if (0 <=? expo x)%Z then (a * 2 ^ expo x * p)%Z
  else round_half_even (a * p) (2 ^ (- expo x)).

(** [s.rjust(width, fill)] *)
Definition rjust (fill : ascii) (width : nat) (s : string) : string :=
  string_of_list_ascii (repeat fill (width - String.length s)) ++ s.

(** [format(x, '.<prec>f')] *)
Definition format_f (prec : nat) (x : float) : string :=
  let n := scaled prec x in
  let p := (10 ^ Z.of_nat prec)%Z in
  let sign := if (mant x <? 0)%Z then "-" else EmptyString in
  let whole := str_int (n / p) in
  let frac := rjust "0" prec (str_int (n mod p)) in
  sign ++ whole ++ match prec with O => EmptyString | S _ => "." ++ frac end.

(** [format(x, '<fill>><width>.<prec>f')]: fixed notation, right-aligned
    in a field of [width] characters padded with [fill]. *)
Definition format_fill_right_f (fill : ascii) (width prec : nat) (x : float) : string :=
  rjust fill width (format_f prec x).

(** ** Slicing: [l[:stop]] *)

Definition slice_to {A} (l : list A) (stop : option Z) : list A :=
  match stop with
  | None => l
  | Some n =>
      if (n <? 0)%Z
      then firstn (Z.to_nat (Z.max 0 (Z.of_nat (List.length l) + n))) l
      else firstn (Z.to_nat n) l
  end.

(** ** Dictionaries

    A [dict] keeps its keys in insertion order, so it is an association
    list with pairwise distinct keys.  The script only ever uses a
    [defaultdict(lambda: [])] from string keys to lists of strings. *)

Definition dict : Type := list (string * list string).

Fixpoint get (d : dict) (k : string) : option (list string) :=
  match d with
  | [] => None
  | (k', v) :: d' => if String.eqb k k' then Some v else get d' k
  end.

(** [d[k].extend(vs)] on a [defaultdict(lambda: [])]: a missing key is
    created at the end with an empty list, which is then extended. *)
Fixpoint extend (d : dict) (k : string) (vs : list string) : dict :=
  match d with
  | [] => [(k, ([] ++ vs)%list)]
  | (k', v) :: d' =>
      if String.eqb k k' then (k', (v ++ vs)%list) :: d'
      else (k', v) :: extend d' k vs
  end.

(** [d[k].append(v)] *)
Definition append (d : dict) (k : string) (v : string) : dict :=
  extend d k [v].

(** [d[k] = v] *)
Fixpoint set (d : dict) (k : string) (v : list string) : dict :=
  match d with
  | [] => [(k, v)]
  | (k', v') :: d' =>
      if String.eqb k k' then (k', v) :: d'
      else (k', v') :: set d' k v
  end.

(** [dict(items)] *)
Definition dict_of_items (items : list (string * list string)) : dict :=
  fold_left (fun d kv => set d (fst kv) (snd kv)) items [].

Definition keys (d : dict) : list string := map fst d.

(** ** Sort keys and [sorted]

    The key function of the script returns an [int] or a [str]. *)

Inductive value : Type :=
| VInt (n : Z)
| VStr (s : string).

(** [a < b] *)
Definition lt (a b : value) : result bool :=
  match a, b with
  | VInt x, VInt y => Ok (x <? y)%Z
  | VStr x, VStr y => Ok (String.ltb x y)
  | _, _ => Raise TypeError
  end.

Section Sorted.
Variable A : Type.

(** The keys are computed once, up front. *)
Fixpoint decorate (key : A -> result value) (l : list A)
  : result (list (value * A)) :=
  match l with
  | [] => Ok []
  | x :: l' =>
      bind (key x) (fun k =>
      bind (decorate key l') (fun r => Ok ((k, x) :: r)))
  end.

(** Stable insertion, every comparison reversed ([reverse=True]): the new
    element, which came first in the input, goes in front of the first
    element that is not strictly greater. *)
Fixpoint insert_rev (x : value * A) (l : list (value * A))
  : result (list (value * A)) :=
  match l with
  | [] => Ok [x]
  | y :: l' =>
      bind (lt (fst x) (fst y)) (fun smaller =>
      if smaller
      then bind (insert_rev x l') (fun r => Ok (y :: r))
      else Ok (x :: y :: l'))
  end.

Fixpoint sort_rev (l : list (value * A)) : result (list (value * A)) :=
  match l with
  | [] => Ok []
  | x :: l' => bind (sort_rev l') (insert_rev x)
  end.

(** [sorted(l, key=key, reverse=True)] *)
Definition sorted_reverse (key : A -> result value) (l : list A)
  : result (list A) :=
  bind (decorate key l) (fun dl =>
  bind (sort_rev dl) (fun sl => Ok (map snd sl))).
End Sorted.

End Py.

Notation "x <- m ;; f" := (Py.bind m (fun x => f))
  (at level 61, m at next level, right associativity).


(* ================================================================== *)
(** * A fragment of Python's [re] module *)
(* ================================================================== *)

(** Patterns are given by their syntax tree (parsing of pattern text is not
    modelled).  The fragment has character sets, concatenation, alternation
    and greedy repetition, matched by backtracking in Python's order of
    preference.  Case folding is the ASCII one; [findall] is exact for
    patterns that cannot match the empty string. *)

Module re.

Inductive regex : Type :=
| Empty                                                  (* the empty pattern *)
| Chars (negate : bool) (ranges : list (ascii * ascii))  (* [a-z0-9], [^...] *)
| Cat (r1 r2 : regex)                                    (* r1 r2 *)
| Alt (r1 r2 : regex)                                    (* r1|r2 *)
| Star (r : regex).                                      (* r*    *)

(** A literal character. *)
Definition Lit (c : ascii) : regex := Chars false [(c, c)].

(** [r?] *)
Definition Opt (r : regex) : regex := Alt r Empty.

(** [r{n}] *)
Fixpoint Times (n : nat) (r : regex) : regex :=
  match n with
  | O => Empty
  | S n' => Cat r (Times n' r)
  end.

(** [r{0,n}] *)
Fixpoint UpTo (n : nat) (r : regex) : regex :=
  match n with
  | O => Empty
  | S n' => Opt (Cat r (UpTo n' r))
  end.

(** [r{lo,hi}] *)
Definition Repeat (lo hi : nat) (r : regex) : regex :=
  Cat (Times lo r) (UpTo (hi - lo) r).

Inductive flag : Type := IGNORECASE.

(** A compiled pattern object. *)
Record Pattern : Type := { pattern : regex; ignorecase : bool }.

(** [re.compile(pattern, flags)]; [flags] is the list of flags or-ed together. *)
Definition compile (r : regex) (flags : list flag) : Pattern :=
  {| pattern := r;
     ignorecase := existsb (fun f => match f with IGNORECASE => true end) flags |}.

Definition code (c : ascii) : N := N_of_ascii c.

Definition in_range (c : ascii) (r : ascii * ascii) : bool :=
  ((code (fst r) <=? code c) && (code c <=? code (snd r)))%N.

Definition in_ranges (rs : list (ascii * ascii)) (c : ascii) : bool :=
  existsb (in_range c) rs.

Definition lower (c : ascii) : ascii :=
  if in_range c ("A"%char, "Z"%char) then ascii_of_N (code c + 32) else c.

Definition upper (c : ascii) : ascii :=
  if in_range c ("a"%char, "z"%char) then ascii_of_N (code c - 32) else c.

(** Does the character set accept [c]?  Under [IGNORECASE] a character is
    in the set when either of its two cases is. *)
Definition accepts (icase negate : bool) (rs : list (ascii * ascii)) (c : ascii) : bool :=
  xorb negate
    (if icase then in_ranges rs (lower c) || in_ranges rs (upper c)
     else in_ranges rs c).

Section Matcher.
Variable A : Type.
Variable icase : bool.

(** [bt r s k]: match [r] at the start of [s] and hand the rest of the
    input to the continuation [k]; the first success in backtracking order
    wins.  A [Star] iteration has to consume input, so at most [length s]
    iterations are tried. *)
Fixpoint bt (r : regex) (s : string) (k : string -> option A) {struct r} : option A :=
  match r with
  | Empty => k s
  | Chars negate rs =>
      match s with
      | EmptyString => None
      | String c s' => if accepts icase negate rs c then k s' else None
      end
  | Cat r1 r2 => bt r1 s (fun s' => bt r2 s' k)
  | Alt r1 r2 =>
      match bt r1 s k with
      | Some a => Some a
      | None => bt r2 s k
      end
  | Star r1 =>
      (fix loop (n : nat) (s : string) {struct n} : option A :=
         match n with
         | O => k s
         | S n' =>
             match bt r1 s (fun s' =>
                     if Nat.ltb (String.length s') (String.length s)
                     then loop n' s' else None) with
             | Some a => Some a
             | None => k s
             end
         end) (String.length s) s
  end.
End Matcher.

(** Is there a match starting at some position of [s]? *)
Fixpoint search_from (icase : bool) (r : regex) (s : string) : bool :=
  match bt icase r s (fun _ => Some tt) with
  | Some _ => true
  | None =>
      match s with
      | EmptyString => false
      | String _ s' => search_from icase r s'
      end
  end.

(** Truth value of [p.search(s)]. *)
Definition search (p : Pattern) (s : string) : bool :=
  search_from (ignorecase p) (pattern p) s.

(** Matches from left to right, without overlap; [skip] characters are
    still covered by the previous match. *)
Fixpoint findall_from (icase : bool) (r : regex) (skip : nat) (s : string)
  {struct s} : list string :=
  match skip with
  | S n =>
      match s with
      | EmptyString => []
      | String _ s' => findall_from icase r n s'
      end
  | O =>
      match bt icase r s (fun rest => Some rest) with
      | Some rest =>
          let n := String.length s - String.length rest in
          substring 0 n s ::
          match s with
          | EmptyString => []
          | String _ s' => findall_from icase r (n - 1) s'
          end
      | None =>
          match s with
          | EmptyString => []
          | String _ s' => findall_from icase r 0 s'
          end
      end
  end.

(** [re.findall(pattern, s)] for a pattern without groups. *)
Definition findall (r : regex) (s : string) : list string :=
  findall_from false r 0 s.

(** Case folding of a whole string. *)
Fixpoint lower_str (s : string) : string :=
  match s with
  | EmptyString => EmptyString
  | String c s' => String (lower c) (lower_str s')
  end.

End re.


(* ================================================================== *)
(** * The database reader ([geoip2]) *)
(* ================================================================== *)

(** The part of a GeoLite2-City answer that the script reads.  Every
    attribute may be [None]. *)

Module geoip2.

Module City.
Record t : Type := { name : option string }.
End City.

Module Subdivision.
Record t : Type := { name : option string }.
End Subdivision.

Module Subdivisions.
Record t : Type := { most_specific : Subdivision.t }.
End Subdivisions.

Module Country.
Record t : Type := { name : option string; iso_code : option string }.
End Country.

Module Location.
Record t : Type :=
  { latitude : option Py.float;
    longitude : option Py.float;
    accuracy_radius : option Z }.
End Location.

Module Model.
Record t : Type :=
  { city : City.t;
    subdivisions : Subdivisions.t;
    country : Country.t;
    location : Location.t }.
End Model.

(** An open reader, seen through its one method [reader.city(ip)]: it
    returns a record or raises. *)
Definition Reader : Type := string -> Py.result Model.t.

End geoip2.

(* ================================================================== *)
(** * The script *)
(* ================================================================== *)

Module geolocate.

Import geoip2.

(** Line feed. *)
Definition nl : string := String (ascii_of_nat 10) EmptyString.

(** ** [read_record] *)

Definition read_record (reader : Reader) (ip : string) : Py.result (option Model.t) :=
  match reader ip with
  | Py.Ok record => Py.Ok (Some record)
  | Py.Raise (Py.AddressNotFoundError _) => Py.Ok None
  | Py.Raise (Py.ValueError _) => Py.Ok None
  | Py.Raise e => Py.Raise e
  end.

(** ** [get_records]: the values computed for a found record *)

Definition city (record : Model.t) : string :=
  match City.name (Model.city record) with
  | Some n => n
  | None => "Unknown"
  end.

Definition state (record : Model.t) : string :=
  match Subdivision.name (Subdivisions.most_specific (Model.subdivisions record)) with
  | Some n => n
  | None => "Unknown"
  end.

Definition country_name (record : Model.t) : string :=
  match Country.name (Model.country record) with
  | Some n => n
  | None => "Unknown"
  end.

Definition country_iso (record : Model.t) : string :=
  match Country.iso_code (Model.country record) with
  | Some c => " (" ++ c ++ ")"
  | None => EmptyString
  end.

Definition country_full (record : Model.t) : string :=
  country_name record ++ country_iso record.

Definition add_record (search_pattern : option re.Pattern) (record : Model.t)
  (ip : string) : bool :=
  match search_pattern with
  | Some p =>
      let match_country := re.search p (country_full record) in
      let match_state := re.search p (state record) in
      let match_city := re.search p (city record) in
      let match_ip := re.search p ip in
      Py.any [match_country; match_state; match_city; match_ip]
  | None => true
  end.

(** [if (latitude and longitude)]: both have to be truthy, and a float is
    truthy when it is not zero. *)
Definition maps_url (record : Model.t) : string :=
  let latitude := Location.latitude (Model.location record) in
  let longitude := Location.longitude (Model.location record) in
  if Py.truthy_opt Py.truthy_float latitude && Py.truthy_opt Py.truthy_float longitude
  then
    match latitude, longitude with
    | Some la, Some lo =>
        "https://maps.google.com/maps?q="
        ++ Py.format_fill_right_f "0" 3 9 la ++ ","
        ++ Py.format_fill_right_f "0" 3 9 lo ++ "&z=15"
    | _, _ => "Null"
    end
  else "Null".

Definition radius (record : Model.t) : string :=
  match Location.accuracy_radius (Model.location record) with
  | Some r => Py.str_int r
  | None => "Null"
  end.

(** The five lines added to an address's entry. *)
Definition detail_block (record : Model.t) : list string :=
  [ "Maps URL:   " ++ maps_url record;
    "Radius(km): " ++ radius record;
    "Country:    " ++ country_full record;
    "State:      " ++ state record;
    "City:       " ++ city record ].

(** ** [get_records]: the loop *)

(** One iteration of [for ip in ip_list]. *)
Definition get_records_step (reader : Reader) (search_pattern : option re.Pattern)
  (filtered_ips : list string) (group_by : string)
  (result_dict : Py.dict) (unknown_ips : list string) (ip : string)
  : Py.result (Py.dict * list string) :=
  if Py.contains filtered_ips ip then Py.Ok (result_dict, unknown_ips)
  else
    record <- read_record reader ip ;;
    match record with
    | Some record =>
        if negb (add_record search_pattern record ip)
        then Py.Ok (result_dict, unknown_ips)
        else if String.eqb group_by "country"
        then Py.Ok (Py.append result_dict (country_full record) ip, unknown_ips)
        else if String.eqb group_by "state/region"
        then Py.Ok (Py.append result_dict (state record ++ country_iso record) ip, unknown_ips)
        else if String.eqb group_by "city"
        then Py.Ok (Py.append result_dict (city record ++ country_iso record) ip, unknown_ips)
        else Py.Ok (Py.extend result_dict ip (detail_block record), unknown_ips)
    | None => Py.Ok (result_dict, (unknown_ips ++ [ip])%list)
    end.

Fixpoint get_records_loop (reader : Reader) (search_pattern : option re.Pattern)
  (filtered_ips : list string) (group_by : string)
  (ip_list : list string) (result_dict : Py.dict) (unknown_ips : list string)
  : Py.result (Py.dict * list string) :=
  match ip_list with
  | [] => Py.Ok (result_dict, unknown_ips)
  | ip :: rest =>
      st <- get_records_step reader search_pattern filtered_ips group_by
              result_dict unknown_ips ip ;;
      get_records_loop reader search_pattern filtered_ips group_by rest (fst st) (snd st)
  end.

Definition get_records (reader : Reader) (ip_list : list string)
  (search_pattern : option re.Pattern) (filtered_ips : list string)
  (group_by : string) : Py.result (Py.dict * list string) :=
  get_records_loop reader search_pattern filtered_ips group_by ip_list [] [].

(** ** [main] *)

(** A path on disk, as the three calls made on it answer. *)
Module Path.
Record t : Type := { is_file : bool; st_size : Z; read_text : string }.
End Path.

(** The namespace returned by [parse_args]; an option that argparse
    suppresses when it is not given is [None].  [search] is the pattern text
    of [--search], already parsed. *)
Module Args.
Record t : Type :=
  { ip : option string;
    file : option Path.t;
    db : string;
    group : string;
    search : option re.regex;
    filter : option (list string);
    limit : Z;
    show_not_found : bool }.
End Args.

(** How a run ends. *)
Inductive outcome : Type :=
| Returned (status : Z) (stdout : list string)  (* [main] returned; one string per [print] *)
| ParserError (message : string)                (* [parser.error]: usage text, exit status 2 *)
| Uncaught (e : Py.exn).                        (* traceback *)

(** [(?:[0-9]{1,3}\.){3}[0-9]{1,3}] *)
Definition pattern : re.regex :=
  let digit := re.Chars false [("0"%char, "9"%char)] in
  re.Cat (re.Times 3 (re.Cat (re.Repeat 1 3 digit) (re.Lit ".")))
         (re.Repeat 1 3 digit).

(** Lines 183 to 207: the addresses to look up. *)
Definition ip_list_of (args : Args.t) : outcome + list string :=
  let single_ip := Args.ip args in
  let file := Args.file args in
  if Py.truthy_opt Py.truthy_str single_ip
  then
    match single_ip with
    | Some single_ip => inr [single_ip]
    | None => inr []
    end
  else
    match file with
    | None => inl (Uncaught Py.AttributeError)
    | Some file =>
        if negb (Path.is_file file)
        then inl (ParserError "file path is invalid or not found")
        else if (Path.st_size file =? 0)%Z
        then inl (ParserError "file is empty")
        else
          let limit := if (Args.limit args <? 1)%Z then None else Some (Args.limit args) in
          let data := Path.read_text file in
          inr (Py.slice_to (re.findall pattern data) limit)
    end.

(** The key of line 218. *)
Definition sort_key (group_by : string) (x : string * list string) : Py.result Py.value :=
  if Py.contains ["country"; "state/region"; "city"] group_by
  then Py.Ok (Py.VInt (Z.of_nat (List.length (snd x))))
  else
    match nth_error (snd x) 2 with
    | Some line => Py.Ok (Py.VStr line)
    | None => Py.Raise Py.IndexError
    end.

(** Lines 217 and 218. *)
Definition sorted_dict (group_by : string) (result_dict : Py.dict) : Py.result Py.dict :=
  items <- Py.sorted_reverse (sort_key group_by) result_dict ;;
  Py.Ok (Py.dict_of_items items).

(** Lines 220 to 223. *)
Definition print_groups (sorted_dict : Py.dict) : list string :=
  flat_map (fun entry =>
              (nl ++ " " ++ fst entry)
              :: map (fun value => "     " ++ value) (snd entry))
           sorted_dict.

(** Lines 227 to 230. *)
Definition print_not_found (show_not_found : bool) (unknown_ips : list string)
  : list string :=
  if show_not_found && (0 <? List.length unknown_ips)%nat
  then (nl ++ "IP addresses not found:") :: map (fun ip => "     " ++ ip) unknown_ips
  else [].

(** Lines 216 to 232. *)
Definition report (group_by : string) (show_not_found : bool)
  (result_dict : Py.dict) (unknown_ips : list string) : outcome :=
  match result_dict with
  | [] =>
      Returned 0 ("No records found" :: print_not_found show_not_found unknown_ips)
  | _ :: _ =>
      match sorted_dict group_by result_dict with
      | Py.Ok sorted_dict =>
          Returned 0 (print_groups sorted_dict
                      ++ print_not_found show_not_found unknown_ips)%list
      | Py.Raise e => Uncaught e
      end
  end.

(** Line 188. *)
Definition search_pattern_of (args : Args.t) : option re.Pattern :=
  match Args.search args with
  | Some r => Some (re.compile r [re.IGNORECASE])
  | None => None
  end.

(** Line 189. *)
Definition filtered_ips_of (args : Args.t) : list string :=
  match Args.filter args with
  | Some l => l
  | None => []
  end.

(** [main]; [open_reader] is [geoip2.database.Reader]: it opens the
    database at a path or raises. *)
Definition main (open_reader : string -> Py.result Reader) (args : Args.t) : outcome :=
  let group_by := Args.group args in
  let search_pattern := search_pattern_of args in
  let filtered_ips := filtered_ips_of args in
  match ip_list_of args with
  | inl stop => stop
  | inr ip_list =>
      match (reader <- open_reader (Args.db args) ;;
             get_records reader ip_list search_pattern filtered_ips group_by) with
      | Py.Raise e => Returned 2 ["ERROR:  " ++ Py.str_exn e]
      | Py.Ok (result_dict, unknown_ips) =>
          report group_by (Args.show_not_found args) result_dict unknown_ips
      end
  end.

End geolocate.

(* ================================================================== *)
(** * Vocabulary of the properties *)
(* ================================================================== *)

Module run.

Import geoip2 geolocate.

(** Grouping by an attribute, as opposed to by address. *)
Definition by_attribute (group_by : string) : bool :=
  Py.contains ["country"; "state/region"; "city"] group_by.

(** An address is aggregated when it sits in some group: as a member of a
    group's list when grouping by attribute, as the group's key when
    grouping by address. *)
Definition aggregated (group_by ip : string) (result_dict : Py.dict) : Prop :=
  if by_attribute group_by
  then exists key values, In (key, values) result_dict /\ In ip values
  else In ip (Py.keys result_dict).

(** What becomes of one address in the loop of [get_records]. *)
Inductive fate : Type :=
| Excluded                      (* in [filtered_ips] *)
| Fatal (e : Py.exn)            (* the lookup raised something else *)
| Unresolved                    (* the lookup found nothing *)
| Rejected (record : Model.t)   (* found, refused by the search pattern *)
| Kept (record : Model.t).      (* found and grouped *)

Definition fate_of (reader : Reader) (search_pattern : option re.Pattern)
  (filtered_ips : list string) (ip : string) : fate :=
  if Py.contains filtered_ips ip then Excluded
  else
    match read_record reader ip with
    | Py.Raise e => Fatal e
    | Py.Ok None => Unresolved
    | Py.Ok (Some record) =>
        if add_record search_pattern record ip then Kept record else Rejected record
    end.

(** Key and lines that a kept record contributes. *)
Definition group_key (group_by : string) (record : Model.t) (ip : string) : string :=
  if String.eqb group_by "country" then country_full record
  else if String.eqb group_by "state/region" then state record ++ country_iso record
  else if String.eqb group_by "city" then city record ++ country_iso record
  else ip.

Definition group_lines (group_by : string) (record : Model.t) (ip : string) : list string :=
  if by_attribute group_by then [ip] else detail_block record.

Definition contribution (reader : Reader) (search_pattern : option re.Pattern)
  (filtered_ips : list string) (group_by : string) (ip : string)
  : list (string * list string) :=
  match fate_of reader search_pattern filtered_ips ip with
  | Kept record => [(group_key group_by record ip, group_lines group_by record ip)]
  | _ => []
  end.

Definition is_unresolved (reader : Reader) (search_pattern : option re.Pattern)
  (filtered_ips : list string) (ip : string) : bool :=
  match fate_of reader search_pattern filtered_ips ip with
  | Unresolved => true
  | _ => false
  end.

Definition is_fatal (reader : Reader) (search_pattern : option re.Pattern)
  (filtered_ips : list string) (ip : string) : bool :=
  match fate_of reader search_pattern filtered_ips ip with
  | Fatal _ => true
  | _ => false
  end.

(** The exception that stops the loop, if any. *)
Fixpoint first_fatal (reader : Reader) (search_pattern : option re.Pattern)
  (filtered_ips : list string) (ip_list : list string) : option Py.exn :=
  match ip_list with
  | [] => None
  | ip :: rest =>
      match fate_of reader search_pattern filtered_ips ip with
      | Fatal e => Some e
      | _ => first_fatal reader search_pattern filtered_ips rest
      end
  end.

(** A dictionary grown by a list of contributions. *)
Definition build (d : Py.dict) (entries : list (string * list string)) : Py.dict :=
  fold_left (fun d e => Py.extend d (fst e) (snd e)) entries d.

Definition lines_for (entries : list (string * list string)) (k : string) : list string :=
  flat_map (fun e => if String.eqb k (fst e) then snd e else []) entries.

Definition has_key (entries : list (string * list string)) (k : string) : bool :=
  existsb (fun e => String.eqb k (fst e)) entries.

(** Order on sort keys: [a] is not smaller than [b]. *)
Definition not_smaller (a b : Py.value) : Prop := Py.lt a b = Py.Ok false.

Definition value_eqb (a b : Py.value) : bool :=
  match a, b with
  | Py.VInt x, Py.VInt y => (x =? y)%Z
  | Py.VStr x, Py.VStr y => String.eqb x y
  | _, _ => false
  end.

Definition same_kind (a b : Py.value) : bool :=
  match a, b with
  | Py.VInt _, Py.VInt _ | Py.VStr _, Py.VStr _ => true
  | _, _ => false
  end.

(** Groups in descending order of their sort key. *)
Definition descending (group_by : string) (groups : Py.dict) : Prop :=
  StronglySorted
    (fun x y => exists kx ky,
         sort_key group_by x = Py.Ok kx /\ sort_key group_by y = Py.Ok ky /\
         not_smaller kx ky)
    groups.

Definition key_is (group_by : string) (v : Py.value) (x : string * list string) : bool :=
  match sort_key group_by x with
  | Py.Ok k => value_eqb k v
  | Py.Raise _ => false
  end.

(** Groups with equal keys come in the same order in both lists. *)
Definition ties_keep_order (group_by : string) (before after : Py.dict) : Prop :=
  forall v, filter (key_is group_by v) after = filter (key_is group_by v) before.

End run.

(* ================================================================== *)
(** * A small database for examples *)
(* ================================================================== *)

Module sample.

Import geoip2 geolocate.

Definition mk_float (m e : Z) : Py.float := {| Py.mant := m; Py.expo := e |}.

Definition mk_record (city state country iso : option string)
  (latitude longitude : option Py.float) (accuracy_radius : option Z) : Model.t :=
  {| Model.city := {| City.name := city |};
     Model.subdivisions :=
       {| Subdivisions.most_specific := {| Subdivision.name := state |} |};
     Model.country := {| Country.name := country; Country.iso_code := iso |};
     Model.location :=
       {| Location.latitude := latitude;
          Location.longitude := longitude;
          Location.accuracy_radius := accuracy_radius |} |}.

(** 37.751 and -97.822 as doubles. *)
Definition us : Model.t :=
  mk_record None None (Some "United States") (Some "US")
    (Some (mk_float 5312980922901987 (-47)))
    (Some (mk_float (-860451411618431) (-43)))
    (Some 1000%Z).

(** -27.5 and 153.0 *)
Definition au : Model.t :=
  mk_record (Some "Brisbane") (Some "Queensland") (Some "Australia") (Some "AU")
    (Some (mk_float (-55) (-1))) (Some (mk_float 153 0)) (Some 50%Z).

(** A place on the equator: latitude 0.0, longitude 9.5. *)
Definition equator : Model.t :=
  mk_record (Some "Libreville") None (Some "Gabon") (Some "GA")
    (Some (mk_float 0 0)) (Some (mk_float 19 (-1))) (Some 20%Z).

(** A record with nothing in it. *)
Definition blank : Model.t := mk_record None None None None None None None.

(** Country known by name only, large radius. *)
Definition zw : Model.t :=
  mk_record None None (Some "Zimbabwe") None
    (Some (mk_float (-19) 0)) (Some (mk_float 59 (-1))) (Some 100%Z).

Definition at_ : Model.t :=
  mk_record None None (Some "Austria") (Some "AT")
    (Some (mk_float 48 0)) (Some (mk_float 16 0)) (Some 200%Z).

(** 43.75 and -79.5 *)
Definition canada : Model.t :=
  mk_record (Some "Toronto") (Some "Ontario") (Some "Canada") (Some "CA")
    (Some (mk_float 175 (-2))) (Some (mk_float (-159) (-1))) (Some 20%Z).

Definition reader : Reader := fun ip =>
  if String.eqb ip "8.8.8.8" then Py.Ok us
  else if String.eqb ip "24.1.1.1" then Py.Ok canada
  else if String.eqb ip "1.2.3.4" then Py.Ok au
  else if String.eqb ip "41.1.1.1" then Py.Ok equator
  else if String.eqb ip "10.0.0.1" then Py.Ok blank
  else if String.eqb ip "5.5.5.5" then Py.Ok zw
  else if String.eqb ip "6.6.6.6" then Py.Ok at_
  else if String.eqb ip "999.1.1.1" then Py.Raise (Py.ValueError "not an IP address")
  else if String.eqb ip "7.7.7.7" then Py.Raise (Py.OtherError "corrupt database")
  else Py.Raise (Py.AddressNotFoundError "not in the database").

(** The pattern [ca]. *)
Definition ca : re.regex := re.Cat (re.Lit "c") (re.Lit "a").

(** Command lines. *)
Definition args_ip (ip : string) (search : option re.regex) : Args.t :=
  {| Args.ip := Some ip; Args.file := None;
     Args.db := "/var/lib/GeoIP/GeoLite2-City.mmdb";
     Args.group := "ip_address"; Args.search := search; Args.filter := None;
     Args.limit := 0; Args.show_not_found := false |}.

Definition ten_addresses : string :=
  "1.1.1.1 2.2.2.2 3.3.3.3 4.4.4.4 5.5.5.5 6.6.6.6 7.7.7.7 8.8.8.8 9.9.9.9 10.10.10.10".

Definition log_file : Path.t :=
  {| Path.is_file := true; Path.st_size := 83; Path.read_text := ten_addresses |}.

Definition args_file (limit : Z) : Args.t :=
  {| Args.ip := None; Args.file := Some log_file;
     Args.db := "/var/lib/GeoIP/GeoLite2-City.mmdb";
     Args.group := "country"; Args.search := None; Args.filter := None;
     Args.limit := limit; Args.show_not_found := true |}.

End sample.

(* ================================================================== *)
(** * Statements that are put to the test *)
(* ================================================================== *)

Module stated.

Import geoip2 geolocate run.

(** Every input address in exactly one of the two buckets. *)
Definition one_bucket_each (reader : Reader) (ip_list : list string)
  (search_pattern : option re.Pattern) (filtered_ips : list string)
  (group_by : string) : Prop :=
  forall d u,
    get_records reader ip_list search_pattern filtered_ips group_by = Py.Ok (d, u) ->
    forall ip, In ip ip_list ->
      (aggregated group_by ip d /\ ~ In ip u) \/
      (~ aggregated group_by ip d /\ In ip u).

(** Accuracy radius of the address a group is keyed by. *)
Definition radius_of (reader : Reader) (x : string * list string) : option Z :=
  match reader (fst x) with
  | Py.Ok record => Location.accuracy_radius (Model.location record)
  | Py.Raise _ => None
  end.

(** Groups in descending order of radius. *)
Definition descending_by_radius (reader : Reader) (groups : Py.dict) : Prop :=
  StronglySorted
    (fun x y =>
       match radius_of reader x, radius_of reader y with
       | Some a, Some b => (b <= a)%Z
       | _, _ => True
       end)
    groups.

(** Grouping by address, the groups come out in descending order of radius. *)
Definition sorted_by_radius (reader : Reader) (ip_list : list string)
  (search_pattern : option re.Pattern) (filtered_ips : list string)
  (group_by : string) : Prop :=
  forall d u groups,
    by_attribute group_by = false ->
    get_records reader ip_list search_pattern filtered_ips group_by = Py.Ok (d, u) ->
    sorted_dict group_by d = Py.Ok groups ->
    descending_by_radius reader groups.

(** Every field that is missing is rendered by a placeholder, the country
    ISO code included. *)
Definition no_field_left_empty (record : Model.t) : Prop :=
  (City.name (Model.city record) = None -> city record = "Unknown") /\
  (Subdivision.name (Subdivisions.most_specific (Model.subdivisions record)) = None ->
   state record = "Unknown") /\
  (Country.name (Model.country record) = None -> country_name record = "Unknown") /\
  (Location.accuracy_radius (Model.location record) = None -> radius record = "Null") /\
  (Country.iso_code (Model.country record) = None -> country_iso record <> EmptyString).

End stated.

(* ================================================================== *)
(** * Vocabulary for the whole run *)
(* ================================================================== *)

Module grouping.

Import geoip2 geolocate run.


(** The address is looked up, found, and passed by the search pattern. *)
Definition is_kept (reader : Reader) (search_pattern : option re.Pattern)
  (filtered_ips : list string) (ip : string) : bool :=
  negb (Py.contains filtered_ips ip) &&
  match reader ip with
  | Py.Ok record => add_record search_pattern record ip
  | Py.Raise _ => false
  end.

(** The address is looked up and [read_record] returns None. *)
Definition is_missing (reader : Reader) (filtered_ips : list string)
  (ip : string) : bool :=
  negb (Py.contains filtered_ips ip) &&
  match read_record reader ip with
  | Py.Ok None => true
  | _ => false
  end.


(** The key a kept address is filed under. *)
Definition key_of (reader : Reader) (group_by : string) (ip : string) : string :=
  match reader ip with
  | Py.Ok record => group_key group_by record ip
  | Py.Raise _ => EmptyString
  end.

(** The address is kept and filed under [k]. *)
Definition lands_in (reader : Reader) (search_pattern : option re.Pattern)
  (filtered_ips : list string) (group_by : string) (k ip : string) : bool :=
  is_kept reader search_pattern filtered_ips ip &&
  String.eqb (key_of reader group_by ip) k.

(** The elements of a list in order of first appearance. *)
Fixpoint first_seen (l : list string) : list string :=
  match l with
  | [] => []
  | x :: l' => x :: filter (fun y => negb (String.eqb y x)) (first_seen l')
  end.

(** Number of lines held by a result mapping. *)
Definition total_lines (d : Py.dict) : nat :=
  List.length (List.concat (map snd d)).

End grouping.

(* ================================================================== *)
(** * The words a pattern matches *)
(* ================================================================== *)

Module shape.

(** [denotes icase r w]: the pattern matches exactly the word [w]. *)
Fixpoint denotes (icase : bool) (r : re.regex) (w : string) : Prop :=
  match r with
  | re.Empty => w = EmptyString
  | re.Chars negate rs =>
      exists c, w = String c EmptyString /\ re.accepts icase negate rs c = true
  | re.Cat r1 r2 =>
      exists w1 w2, w = w1 ++ w2 /\ denotes icase r1 w1 /\ denotes icase r2 w2
  | re.Alt r1 r2 => denotes icase r1 w \/ denotes icase r2 w
  | re.Star r1 =>
      exists ws, w = String.concat EmptyString ws /\ Forall (denotes icase r1) ws
  end.

Definition is_digit (c : ascii) : bool := re.in_range c ("0"%char, "9"%char).

Fixpoint all_digits (s : string) : bool :=
  match s with
  | EmptyString => true
  | String c s' => is_digit c && all_digits s'
  end.

(** One to three decimal digits. *)
Definition octet (o : string) : Prop :=
  (1 <= String.length o <= 3)%nat /\ all_digits o = true.

(** Four such groups separated by dots. *)
Definition dotted_quad (w : string) : Prop :=
  exists a b c d,
    w = a ++ "." ++ b ++ "." ++ c ++ "." ++ d /\
    octet a /\ octet b /\ octet c /\ octet d.

(** [w] occurs in [s]. *)
Definition occurs_in (w s : string) : Prop :=
  exists before after, s = before ++ w ++ after.

End shape.

(* ================================================================== *)
(** * Facts about the Python builtins *)
(* ================================================================== *)

Import geoip2 geolocate run.

Unset Implicit Arguments.

#[local] Hint Resolve String.eqb_refl : core.

Ltac eqb_cases a b :=
  destruct (String.eqb_spec a b); subst.

Section DictFacts.

Lemma get_extend (d : Py.dict) (k : string) (vs : list string) (k' : string) :
  Py.get (Py.extend d k vs) k' =
  if String.eqb k' k
  then Some (match Py.get d k with Some v => v ++ vs | None => vs end)%list
  else Py.get d k'.
Proof.
  induction d as [|[k0 v0] d IH]; simpl.
  - eqb_cases k' k; reflexivity.
  - eqb_cases k k0; simpl.
    + eqb_cases k' k0; reflexivity.
    + eqb_cases k' k0.
      * eqb_cases k0 k; [congruence | reflexivity].
      * apply IH.
Qed.

Lemma get_Some_In (d : Py.dict) (k : string) (v : list string) :
  Py.get d k = Some v -> In (k, v) d.
Proof.
  induction d as [|[k0 v0] d IH]; simpl; [discriminate|].
  eqb_cases k k0; intros H.
  - left. congruence.
  - right. auto.
Qed.

Lemma get_None_keys (d : Py.dict) (k : string) :
  Py.get d k = None <-> ~ In k (Py.keys d).
Proof.
  induction d as [|[k0 v0] d IH]; simpl.
  - tauto.
  - eqb_cases k k0; split; intros H; try discriminate.
    + exfalso. apply H. now left.
    + intros [E|E]; [congruence|]. now apply IH in H.
    + apply IH. tauto.
Qed.

Lemma In_get (d : Py.dict) (k : string) (v : list string) :
  NoDup (Py.keys d) -> In (k, v) d -> Py.get d k = Some v.
Proof.
  induction d as [|[k0 v0] d IH]; simpl; [tauto|].
  intros ND [E|E].
  - inversion E; subst. now rewrite String.eqb_refl.
  - inversion ND as [|? ? Hnot ND']; subst.
    eqb_cases k k0.
    + exfalso. apply Hnot. change k0 with (fst (k0, v)). now apply in_map.
    + auto.
Qed.

Lemma keys_get (d : Py.dict) (k : string) :
  In k (Py.keys d) <-> exists v, Py.get d k = Some v.
Proof.
  destruct (Py.get d k) as [v|] eqn:E.
  - split; [eauto|]. intros _. apply get_Some_In in E.
    change k with (fst (k, v)). now apply in_map.
  - split.
    + intros H. now apply get_None_keys in E.
    + intros [v H]. discriminate.
Qed.

Lemma keys_extend (d : Py.dict) (k : string) (vs : list string) :
  Py.keys (Py.extend d k vs) =
  if Py.contains (Py.keys d) k then Py.keys d else (Py.keys d ++ [k])%list.
Proof.
  unfold Py.contains.
  induction d as [|[k0 v0] d IH]; simpl; [reflexivity|].
  eqb_cases k k0; simpl; [reflexivity|].
  rewrite IH. now destruct (existsb (String.eqb k) (Py.keys d)).
Qed.

Lemma contains_In (l : list string) (x : string) :
  Py.contains l x = true <-> In x l.
Proof.
  unfold Py.contains. rewrite existsb_exists. split.
  - intros [y [Hy E]]. apply String.eqb_eq in E. now subst.
  - intros H. exists x. now rewrite String.eqb_refl.
Qed.

Lemma contains_false (l : list string) (x : string) :
  Py.contains l x = false <-> ~ In x l.
Proof.
  rewrite <- contains_In. now destruct (Py.contains l x).
Qed.

Lemma NoDup_keys_extend (d : Py.dict) (k : string) (vs : list string) :
  NoDup (Py.keys d) -> NoDup (Py.keys (Py.extend d k vs)).
Proof.
  intros ND. rewrite keys_extend.
  destruct (Py.contains (Py.keys d) k) eqn:E; [assumption|].
  apply contains_false in E.
  apply NoDup_app; [assumption | repeat constructor; simpl; tauto |].
  intros x Hx [<-|[]]. contradiction.
Qed.

Lemma NoDup_keys_build (entries : list (string * list string)) (d : Py.dict) :
  NoDup (Py.keys d) -> NoDup (Py.keys (build d entries)).
Proof.
  revert d. induction entries as [|e es IH]; simpl; intros d ND; [assumption|].
  apply IH. now apply NoDup_keys_extend.
Qed.

Lemma get_build (entries : list (string * list string)) (d : Py.dict) (k : string) :
  Py.get (build d entries) k =
  match Py.get d k with
  | Some v => Some (v ++ lines_for entries k)%list
  | None => if has_key entries k then Some (lines_for entries k) else None
  end.
Proof.
  revert d. induction entries as [|[k0 vs] es IH]; simpl; intros d.
  - destruct (Py.get d k); [now rewrite app_nil_r | reflexivity].
  - rewrite IH, get_extend. simpl.
    eqb_cases k k0.
    + destruct (Py.get d k0); simpl; [now rewrite <- app_assoc | reflexivity].
    + destruct (Py.get d k); reflexivity.
Qed.

Lemma set_absent (d : Py.dict) (k : string) (v : list string) :
  ~ In k (Py.keys d) -> Py.set d k v = (d ++ [(k, v)])%list.
Proof.
  induction d as [|[k0 v0] d IH]; simpl; intros H; [reflexivity|].
  eqb_cases k k0; [tauto|]. rewrite IH; tauto.
Qed.

Lemma dict_of_items_NoDup (items : list (string * list string)) :
  NoDup (map fst items) -> Py.dict_of_items items = items.
Proof.
  unfold Py.dict_of_items.
  assert (G : forall d, NoDup (map fst (d ++ items)) ->
                   fold_left (fun d kv => Py.set d (fst kv) (snd kv)) items d
                   = (d ++ items)%list).
  { induction items as [|[k v] items IH]; simpl; intros d ND.
    - now rewrite app_nil_r.
    - rewrite set_absent.
      + rewrite IH; rewrite <- app_assoc; [reflexivity | exact ND].
      + rewrite map_app in ND. simpl in ND.
        apply NoDup_remove_2 in ND. intros H. apply ND.
        apply in_or_app. now left. }
  intros ND. now apply (G []).
Qed.

End DictFacts.

(* ================================================================== *)
(** * The loop of [get_records] *)
(* ================================================================== *)

Section LoopFacts.

Variable reader : Reader.
Variable search_pattern : option re.Pattern.
Variable filtered_ips : list string.
Variable group_by : string.

Let fate := fate_of reader search_pattern filtered_ips.
Let entries := flat_map (contribution reader search_pattern filtered_ips group_by).
Let unresolved := filter (is_unresolved reader search_pattern filtered_ips).

(** One iteration, by the fate of the address. *)
Lemma step_fate (d : Py.dict) (u : list string) (ip : string) :
  get_records_step reader search_pattern filtered_ips group_by d u ip =
  match fate ip with
  | Excluded | Rejected _ => Py.Ok (d, u)
  | Fatal e => Py.Raise e
  | Unresolved => Py.Ok (d, (u ++ [ip])%list)
  | Kept record =>
      Py.Ok (Py.extend d (group_key group_by record ip)
                         (group_lines group_by record ip), u)
  end.
Proof.
  unfold fate, get_records_step, fate_of.
  destruct (Py.contains filtered_ips ip); [reflexivity|].
  destruct (read_record reader ip) as [[record|]|e]; simpl; try reflexivity.
  destruct (add_record search_pattern record ip); simpl; [|reflexivity].
  unfold group_key, group_lines, by_attribute, Py.contains, Py.append. simpl.
  destruct (String.eqb group_by "country"); [reflexivity|].
  destruct (String.eqb group_by "state/region"); [reflexivity|].
  destruct (String.eqb group_by "city"); reflexivity.
Qed.

(** The whole loop: it stops at the first fatal lookup, and otherwise
    returns the contributions of the kept addresses and the unresolved
    addresses, both in input order. *)
Lemma loop_spec (ip_list : list string) (d : Py.dict) (u : list string) :
  get_records_loop reader search_pattern filtered_ips group_by ip_list d u =
  match first_fatal reader search_pattern filtered_ips ip_list with
  | Some e => Py.Raise e
  | None => Py.Ok (build d (entries ip_list), (u ++ unresolved ip_list)%list)
  end.
Proof.
  revert d u. induction ip_list as [|ip rest IH]; intros d u; simpl.
  - now rewrite app_nil_r.
  - rewrite step_fate. unfold entries, unresolved, contribution, is_unresolved in *.
    simpl. fold fate.
    destruct (fate ip); simpl; rewrite ?IH; try reflexivity.
    destruct (first_fatal _ _ _ rest); [reflexivity|].
    now rewrite <- app_assoc.
Qed.

Lemma get_records_spec (ip_list : list string) :
  get_records reader ip_list search_pattern filtered_ips group_by =
  match first_fatal reader search_pattern filtered_ips ip_list with
  | Some e => Py.Raise e
  | None => Py.Ok (build [] (entries ip_list), unresolved ip_list)
  end.
Proof. unfold get_records. now rewrite loop_spec. Qed.

Lemma get_records_Ok (ip_list : list string) (d : Py.dict) (u : list string) :
  get_records reader ip_list search_pattern filtered_ips group_by = Py.Ok (d, u) ->
  d = build [] (entries ip_list) /\ u = unresolved ip_list.
Proof.
  rewrite get_records_spec.
  destruct (first_fatal _ _ _ ip_list); [discriminate|].
  intros H. inversion H. auto.
Qed.

End LoopFacts.

(* ================================================================== *)
(** * Where an address ends up *)
(* ================================================================== *)

Lemma In_lines_for (entries : list (string * list string)) (k x : string) :
  In x (lines_for entries k) <->
  exists e, In e entries /\ fst e = k /\ In x (snd e).
Proof.
  unfold lines_for. rewrite in_flat_map. split.
  - intros [e [He Hx]]. exists e. eqb_cases k (fst e); simpl in Hx; tauto.
  - intros [e [He [<- Hx]]]. exists e. now rewrite String.eqb_refl.
Qed.

Lemma has_key_true (entries : list (string * list string)) (k : string) :
  has_key entries k = true <-> exists e, In e entries /\ fst e = k.
Proof.
  unfold has_key. rewrite existsb_exists. split.
  - intros [e [He E]]. apply String.eqb_eq in E. eauto.
  - intros [e [He <-]]. exists e. now rewrite String.eqb_refl.
Qed.

Lemma group_key_by_address (group_by : string) (record : Model.t) (ip : string) :
  by_attribute group_by = false -> group_key group_by record ip = ip.
Proof.
  unfold by_attribute, Py.contains, group_key. simpl.
  destruct (String.eqb group_by "country"); [discriminate|].
  destruct (String.eqb group_by "state/region"); [discriminate|].
  destruct (String.eqb group_by "city"); [discriminate|reflexivity].
Qed.

Section BucketFacts.

Variable reader : Reader.
Variable search_pattern : option re.Pattern.
Variable filtered_ips : list string.
Variable group_by : string.

Let fate := fate_of reader search_pattern filtered_ips.
Let entries := flat_map (contribution reader search_pattern filtered_ips group_by).
Let unresolved := filter (is_unresolved reader search_pattern filtered_ips).

Lemma In_entries (ip_list : list string) (e : string * list string) :
  In e (entries ip_list) <->
  exists ip record,
    In ip ip_list /\ fate ip = Kept record /\
    e = (group_key group_by record ip, group_lines group_by record ip).
Proof.
  unfold entries. rewrite in_flat_map. unfold contribution. fold fate. split.
  - intros [ip [Hip He]]. destruct (fate ip) eqn:F; simpl in He; try tauto.
    destruct He as [<-|[]]. eauto.
  - intros [ip [record [Hip [F ->]]]]. exists ip. rewrite F. simpl. auto.
Qed.

Lemma In_unresolved (ip_list : list string) (ip : string) :
  In ip (unresolved ip_list) <-> In ip ip_list /\ fate ip = Unresolved.
Proof.
  unfold unresolved. rewrite filter_In. unfold is_unresolved. fold fate.
  destruct (fate ip); intuition congruence.
Qed.

(** An address is aggregated exactly when it is in the input and kept. *)
Lemma aggregated_iff (ip_list : list string) (ip : string) :
  aggregated group_by ip (build [] (entries ip_list)) <->
  In ip ip_list /\ exists record, fate ip = Kept record.
Proof.
  unfold aggregated. destruct (by_attribute group_by) eqn:G.
  - split.
    + intros [key [values [Hin Hip]]].
      apply In_get in Hin; [|apply NoDup_keys_build; constructor].
      rewrite get_build in Hin. simpl in Hin.
      destruct (has_key (entries ip_list) key); [|discriminate].
      inversion Hin; subst values; clear Hin.
      apply In_lines_for in Hip. destruct Hip as [e [He [_ Hx]]].
      apply In_entries in He. destruct He as [ip' [record [Hin' [F ->]]]].
      unfold group_lines in Hx. rewrite G in Hx. simpl in Hx.
      destruct Hx as [<-|[]]. eauto.
    + intros [Hin [record F]].
      set (e := (group_key group_by record ip, group_lines group_by record ip)).
      assert (He : In e (entries ip_list)) by (apply In_entries; eauto).
      exists (fst e), (lines_for (entries ip_list) (fst e)). split.
      * assert (K : has_key (entries ip_list) (fst e) = true)
          by (apply has_key_true; eauto).
        apply get_Some_In. rewrite get_build. simpl in K |- *. now rewrite K.
      * apply In_lines_for. exists e. repeat split; [assumption|].
        subst e. unfold group_lines. rewrite G. simpl. auto.
  - rewrite keys_get. split.
    + intros [v Hv]. rewrite get_build in Hv. simpl in Hv.
      destruct (has_key (entries ip_list) ip) eqn:K; [|discriminate].
      apply has_key_true in K. destruct K as [e [He Hk]].
      apply In_entries in He. destruct He as [ip' [record [Hin' [F ->]]]].
      simpl in Hk. rewrite group_key_by_address in Hk by assumption. subst ip'.
      eauto.
    + intros [Hin [record F]].
      assert (K : has_key (entries ip_list) ip = true).
      { apply has_key_true.
        exists (group_key group_by record ip, group_lines group_by record ip).
        split; [apply In_entries; eauto|].
        simpl. now apply group_key_by_address. }
      exists (lines_for (entries ip_list) ip). rewrite get_build. simpl.
      now rewrite K.
Qed.

End BucketFacts.

(** ** The fate of an address, in terms of the inputs *)

Section FateFacts.

Variable reader : Reader.
Variable search_pattern : option re.Pattern.
Variable filtered_ips : list string.

Let fate := fate_of reader search_pattern filtered_ips.

Lemma read_record_found (ip : string) (record : Model.t) :
  read_record reader ip = Py.Ok (Some record) <-> reader ip = Py.Ok record.
Proof.
  unfold read_record. destruct (reader ip) as [r|[]]; split; congruence.
Qed.

Lemma read_record_none (ip : string) :
  read_record reader ip = Py.Ok None <->
  exists msg, reader ip = Py.Raise (Py.AddressNotFoundError msg) \/
              reader ip = Py.Raise (Py.ValueError msg).
Proof.
  unfold read_record. destruct (reader ip) as [r|[]]; split;
    try congruence; try (intros [m [H|H]]; congruence); eauto.
Qed.

Lemma fate_excluded (ip : string) :
  fate ip = Excluded <-> Py.contains filtered_ips ip = true.
Proof.
  unfold fate, fate_of. destruct (Py.contains filtered_ips ip); [tauto|].
  destruct (read_record reader ip) as [[r|]|e];
    try destruct (add_record search_pattern r ip); split; congruence.
Qed.

Lemma fate_kept (ip : string) (record : Model.t) :
  fate ip = Kept record <->
  Py.contains filtered_ips ip = false /\ reader ip = Py.Ok record /\
  add_record search_pattern record ip = true.
Proof.
  rewrite <- read_record_found. unfold fate, fate_of.
  destruct (Py.contains filtered_ips ip); [intuition congruence|].
  destruct (read_record reader ip) as [[r|]|e]; try (intuition congruence).
  destruct (add_record search_pattern r ip) eqn:E; split.
  - intros H. inversion H; subst. auto.
  - intros [_ [H _]]. congruence.
  - congruence.
  - intros [_ [H H']]. inversion H; subst. congruence.
Qed.

Lemma fate_rejected (ip : string) (record : Model.t) :
  fate ip = Rejected record <->
  Py.contains filtered_ips ip = false /\ reader ip = Py.Ok record /\
  add_record search_pattern record ip = false.
Proof.
  rewrite <- read_record_found. unfold fate, fate_of.
  destruct (Py.contains filtered_ips ip); [intuition congruence|].
  destruct (read_record reader ip) as [[r|]|e]; try (intuition congruence).
  destruct (add_record search_pattern r ip) eqn:E; split.
  - congruence.
  - intros [_ [H H']]. inversion H; subst. congruence.
  - intros H. inversion H; subst. auto.
  - intros [_ [H _]]. congruence.
Qed.

Lemma fate_unresolved (ip : string) :
  fate ip = Unresolved <->
  Py.contains filtered_ips ip = false /\ read_record reader ip = Py.Ok None.
Proof.
  unfold fate, fate_of.
  destruct (Py.contains filtered_ips ip); [intuition congruence|].
  destruct (read_record reader ip) as [[r|]|e];
    try destruct (add_record search_pattern r ip); intuition congruence.
Qed.

Lemma first_fatal_None (ip_list : list string) (ip : string) :
  first_fatal reader search_pattern filtered_ips ip_list = None ->
  In ip ip_list -> forall e, fate ip <> Fatal e.
Proof.
  induction ip_list as [|x rest IH]; simpl; [tauto|].
  intros H [<-|Hin] e F.
  - unfold fate in F. now rewrite F in H.
  - destruct (fate_of reader search_pattern filtered_ips x);
      try discriminate; now apply (IH H Hin e).
Qed.

Lemma get_records_no_fatal (group_by : string) (ip_list : list string)
  (d : Py.dict) (u : list string) (ip : string) :
  get_records reader ip_list search_pattern filtered_ips group_by = Py.Ok (d, u) ->
  In ip ip_list -> forall e, fate ip <> Fatal e.
Proof.
  rewrite get_records_spec.
  destruct (first_fatal reader search_pattern filtered_ips ip_list) eqn:E;
    [discriminate|].
  intros _. now apply first_fatal_None.
Qed.

End FateFacts.

(* ================================================================== *)
(** * The two buckets *)
(* ================================================================== *)

(** Bucket membership of an input address after a run that returned. *)
Lemma buckets_by_fate (reader : Reader) (ip_list : list string)
  (search_pattern : option re.Pattern) (filtered_ips : list string)
  (group_by : string) (d : Py.dict) (u : list string) (ip : string) :
  get_records reader ip_list search_pattern filtered_ips group_by = Py.Ok (d, u) ->
  (aggregated group_by ip d <->
   In ip ip_list /\
   exists record, fate_of reader search_pattern filtered_ips ip = Kept record) /\
  (In ip u <->
   In ip ip_list /\ fate_of reader search_pattern filtered_ips ip = Unresolved).
Proof.
  intros H. apply get_records_Ok in H. destruct H as [-> ->]. split.
  - exact (aggregated_iff _ _ _ _ _ _).
  - exact (In_unresolved reader search_pattern filtered_ips group_by ip_list ip).
Qed.

(** C1 (amended): after a run of [get_records] that returns, no input
    address is in both buckets; an address that is neither excluded nor a
    found record refused by the search pattern is in exactly one of them
    (aggregated into a group, or listed as unresolved); an excluded address
    and a found record refused by the search pattern are in neither. *)
Theorem C1_buckets (reader : Reader) (ip_list : list string)
  (search_pattern : option re.Pattern) (filtered_ips : list string)
  (group_by : string) (d : Py.dict) (u : list string) (ip : string) :
  get_records reader ip_list search_pattern filtered_ips group_by = Py.Ok (d, u) ->
  In ip ip_list ->
  let excluded := Py.contains filtered_ips ip = true in
  let refused :=
    exists record, reader ip = Py.Ok record /\
                   add_record search_pattern record ip = false in
  ~ (aggregated group_by ip d /\ In ip u) /\
  (~ excluded -> ~ refused ->
   (aggregated group_by ip d /\ ~ In ip u) \/
   (~ aggregated group_by ip d /\ In ip u)) /\
  (excluded \/ refused -> ~ aggregated group_by ip d /\ ~ In ip u).
Proof.
  intros H Hin excluded refused.
  pose proof (get_records_no_fatal _ _ _ _ _ _ _ _ H Hin) as NF.
  destruct (buckets_by_fate _ _ _ _ _ _ _ ip H) as [A U].
  rewrite A, U. clear A U H.
  subst excluded refused.
  destruct (fate_of reader search_pattern filtered_ips ip) as [|e| |r|r] eqn:F.
  - apply fate_excluded in F.
    split; [|split].
    + intros [[_ [r E]] _]. discriminate.
    + intros N. contradiction.
    + intros _. split; [intros [_ [r E]] | intros [_ E]]; discriminate.
  - exfalso. now apply (NF e).
  - apply fate_unresolved in F. destruct F as [F1 F2].
    assert (NR : forall r, reader ip <> Py.Ok r).
    { intros r E. apply read_record_found in E. congruence. }
    split; [|split].
    + intros [[_ [r E]] _]. discriminate.
    + intros _ _. right. split; [intros [_ [r E]]; discriminate | auto].
    + intros [E|[r [E _]]]; [congruence | now apply NR in E].
  - apply fate_rejected in F. destruct F as [F1 [F2 F3]].
    split; [|split].
    + intros [[_ [r' E]] _]. discriminate.
    + intros _ N. exfalso. apply N. eauto.
    + intros _. split; [intros [_ [r' E]] | intros [_ E]]; discriminate.
  - apply fate_kept in F. destruct F as [F1 [F2 F3]].
    split; [|split].
    + intros [_ [_ E]]. discriminate.
    + intros _ _. left. split; [eauto | intros [_ E]; discriminate].
    + intros [E|[r' [E E']]]; congruence.
Qed.

Lemma C1_buckets_witness :
  get_records sample.reader ["8.8.8.8"; "127.0.0.1"] None [] "country"
  = Py.Ok ([("United States (US)", ["8.8.8.8"])], ["127.0.0.1"]) /\
  ~ (aggregated "country" "127.0.0.1" [("United States (US)", ["8.8.8.8"])] /\
     In "127.0.0.1" ["127.0.0.1"]) /\
  ((aggregated "country" "127.0.0.1" [("United States (US)", ["8.8.8.8"])] /\
    ~ In "127.0.0.1" ["127.0.0.1"]) \/
   (~ aggregated "country" "127.0.0.1" [("United States (US)", ["8.8.8.8"])] /\
    In "127.0.0.1" ["127.0.0.1"])).
Proof.
  split; [reflexivity|].
  destruct (C1_buckets sample.reader ["8.8.8.8"; "127.0.0.1"] None [] "country"
              [("United States (US)", ["8.8.8.8"])] ["127.0.0.1"]
              "127.0.0.1" eq_refl (or_intror (or_introl eq_refl)))
    as [Both [One _]].
  split; [exact Both|].
  apply One.
  - simpl. discriminate.
  - intros [record [E _]]. vm_compute in E. discriminate.
Defined.

(** C1 as stated fails: an excluded address is in neither bucket. *)
Lemma C1_counterexample :
  ~ stated.one_bucket_each sample.reader ["8.8.8.8"] None ["8.8.8.8"] "ip_address".
Proof.
  intros H.
  destruct (H [] [] eq_refl "8.8.8.8" (or_introl eq_refl)) as [[A _]|[_ U]].
  - exact A.
  - exact U.
Qed.

(* ================================================================== *)
(** * Exclusion *)
(* ================================================================== *)

Lemma indent_inj (a b : string) : "     " ++ a = "     " ++ b -> a = b.
Proof. simpl. intros H. now inversion H. Qed.

Lemma print_not_found_lines (show_not_found : bool) (u : list string) (ip : string) :
  In ("     " ++ ip) (print_not_found show_not_found u) -> In ip u.
Proof.
  unfold print_not_found.
  destruct (show_not_found && (0 <? List.length u)%nat); [|intros []].
  intros [E|H].
  - simpl in E. discriminate.
  - apply in_map_iff in H. destruct H as [x [E Hx]].
    apply indent_inj in E. now subst.
Qed.

(** C4: an address of the exclusion set is passed over before the reader
    is asked (the iteration leaves both buckets as they are, whatever the
    reader would answer and whatever the search pattern is), so after the
    run it is in no group and not in the unresolved list, and the section
    printed for --show-missing has no line for it. *)
Theorem C4_excluded_address (reader : Reader) (ip_list : list string)
  (search_pattern : option re.Pattern) (filtered_ips : list string)
  (group_by : string) (ip : string) :
  In ip filtered_ips ->
  (forall d u,
      get_records_step reader search_pattern filtered_ips group_by d u ip
      = Py.Ok (d, u)) /\
  (forall d u,
      get_records reader ip_list search_pattern filtered_ips group_by = Py.Ok (d, u) ->
      ~ aggregated group_by ip d /\ ~ In ip u /\
      forall show_not_found,
        ~ In ("     " ++ ip) (print_not_found show_not_found u)).
Proof.
  intros Hex. apply contains_In in Hex. split.
  - intros d u. unfold get_records_step. now rewrite Hex.
  - intros d u H.
    destruct (buckets_by_fate _ _ _ _ _ _ _ ip H) as [A U].
    assert (F : fate_of reader search_pattern filtered_ips ip = Excluded)
      by now apply fate_excluded.
    rewrite F in A, U.
    assert (NU : ~ In ip u) by (rewrite U; intros [_ E]; discriminate).
    split; [|split].
    + rewrite A. intros [_ [r E]]. discriminate.
    + exact NU.
    + intros show_not_found Hl. apply NU.
      now apply print_not_found_lines in Hl.
Qed.

Lemma C4_excluded_address_witness :
  get_records_step sample.reader
    (Some (re.compile sample.ca [re.IGNORECASE])) ["1.2.3.4"; "7.7.7.7"] "city"
    [] [] "7.7.7.7" = Py.Ok ([], []) /\
  ~ In "7.7.7.7" ["127.0.0.1"].
Proof.
  destruct (C4_excluded_address sample.reader ["7.7.7.7"; "127.0.0.1"]
              (Some (re.compile sample.ca [re.IGNORECASE]))
              ["1.2.3.4"; "7.7.7.7"] "city" "7.7.7.7"
              (or_intror (or_introl eq_refl))) as [Step Run].
  split; [apply Step|].
  exact (proj1 (proj2 (Run [] ["127.0.0.1"] eq_refl))).
Defined.

(* ================================================================== *)
(** * Lookups that find nothing *)
(* ================================================================== *)

Lemma first_fatal_app (reader : Reader) (search_pattern : option re.Pattern)
  (filtered_ips : list string) (l1 l2 : list string) :
  first_fatal reader search_pattern filtered_ips (l1 ++ l2) =
  match first_fatal reader search_pattern filtered_ips l1 with
  | Some e => Some e
  | None => first_fatal reader search_pattern filtered_ips l2
  end.
Proof.
  induction l1 as [|x l1 IH]; simpl; [reflexivity|].
  destruct (fate_of reader search_pattern filtered_ips x); auto.
Qed.

(** C7: when the reader raises AddressNotFoundError or ValueError for an
    address that is not excluded, [read_record] returns None; the iteration
    appends the address to the unresolved list and the loop goes on with
    the addresses after it; the address is then in the unresolved bucket and
    in no group; and the address never makes the run raise: the run over a
    list with this address raises exactly when the run without it does. *)
Theorem C7_lookup_failure_is_absorbed (reader : Reader)
  (search_pattern : option re.Pattern) (filtered_ips : list string)
  (group_by : string) (ip msg : string) :
  ~ In ip filtered_ips ->
  reader ip = Py.Raise (Py.AddressNotFoundError msg) \/
  reader ip = Py.Raise (Py.ValueError msg) ->
  read_record reader ip = Py.Ok None /\
  (forall after d u,
      get_records_loop reader search_pattern filtered_ips group_by (ip :: after) d u
      = get_records_loop reader search_pattern filtered_ips group_by after d
          (u ++ [ip])%list) /\
  (forall ip_list d u,
      In ip ip_list ->
      get_records reader ip_list search_pattern filtered_ips group_by = Py.Ok (d, u) ->
      In ip u /\ ~ aggregated group_by ip d) /\
  (forall before after e,
      get_records reader (before ++ ip :: after) search_pattern filtered_ips group_by
      = Py.Raise e <->
      get_records reader (before ++ after) search_pattern filtered_ips group_by
      = Py.Raise e).
Proof.
  intros Hex Hfail. apply contains_false in Hex.
  assert (R : read_record reader ip = Py.Ok None)
    by (apply read_record_none; eauto).
  assert (F : fate_of reader search_pattern filtered_ips ip = Unresolved)
    by (apply fate_unresolved; auto).
  split; [exact R|]. split; [|split].
  - intros after d u. simpl. rewrite step_fate, F. reflexivity.
  - intros ip_list d u Hin H.
    destruct (buckets_by_fate _ _ _ _ _ _ _ ip H) as [A U].
    rewrite A, U, F. split; [auto|]. intros [_ [r E]]. discriminate.
  - intros before after e. rewrite !get_records_spec, !first_fatal_app.
    simpl. rewrite F.
    destruct (first_fatal reader search_pattern filtered_ips before);
      [tauto|].
    destruct (first_fatal reader search_pattern filtered_ips after);
      split; intros H; congruence.
Qed.

Lemma C7_lookup_failure_is_absorbed_witness :
  read_record sample.reader "999.1.1.1" = Py.Ok None /\
  get_records_loop sample.reader None [] "ip_address" ["999.1.1.1"; "127.0.0.1"] [] []
  = get_records_loop sample.reader None [] "ip_address" ["127.0.0.1"] []
      ([] ++ ["999.1.1.1"])%list.
Proof.
  destruct (C7_lookup_failure_is_absorbed sample.reader None [] "ip_address"
              "999.1.1.1" "not an IP address"
              (fun H : In "999.1.1.1" [] => H) (or_intror eq_refl))
    as [R [Step _]].
  split; [exact R | apply Step].
Defined.

(* ================================================================== *)
(** * The search pattern and the unresolved list *)
(* ================================================================== *)

Lemma is_unresolved_any_pattern (reader : Reader)
  (p q : option re.Pattern) (filtered_ips : list string) (ip : string) :
  is_unresolved reader p filtered_ips ip = is_unresolved reader q filtered_ips ip.
Proof.
  unfold is_unresolved, fate_of.
  destruct (Py.contains filtered_ips ip); [reflexivity|].
  destruct (read_record reader ip) as [[r|]|e]; try reflexivity.
  now destruct (add_record p r ip), (add_record q r ip).
Qed.

Lemma first_fatal_any_pattern (reader : Reader)
  (p q : option re.Pattern) (filtered_ips : list string) (ip_list : list string) :
  first_fatal reader p filtered_ips ip_list = first_fatal reader q filtered_ips ip_list.
Proof.
  induction ip_list as [|x rest IH]; simpl; [reflexivity|].
  unfold fate_of.
  destruct (Py.contains filtered_ips x); [exact IH|].
  destruct (read_record reader x) as [[r|]|e]; try exact IH; try reflexivity.
  now destruct (add_record p r x), (add_record q r x).
Qed.

(** C9: the search pattern is only consulted for found records.  After a
    run that returns, every input address that is not excluded and whose
    lookup returned None is in the unresolved list, whatever the search
    pattern; and the unresolved list is the one the same run produces with
    any other search pattern, or with none. *)
Theorem C9_search_leaves_unresolved_alone (reader : Reader) (ip_list : list string)
  (search_pattern : option re.Pattern) (filtered_ips : list string)
  (group_by : string) (d : Py.dict) (u : list string) :
  get_records reader ip_list search_pattern filtered_ips group_by = Py.Ok (d, u) ->
  (forall ip,
      In ip ip_list -> ~ In ip filtered_ips ->
      read_record reader ip = Py.Ok None -> In ip u) /\
  (forall other, exists d',
      get_records reader ip_list other filtered_ips group_by = Py.Ok (d', u)).
Proof.
  intros H. split.
  - intros ip Hin Hex R. apply contains_false in Hex.
    destruct (buckets_by_fate _ _ _ _ _ _ _ ip H) as [_ U].
    apply U. split; [assumption|]. apply fate_unresolved. auto.
  - intros other. rewrite get_records_spec in *.
    rewrite (first_fatal_any_pattern reader other search_pattern).
    destruct (first_fatal reader search_pattern filtered_ips ip_list);
      [discriminate|].
    inversion H; subst. eexists. f_equal. f_equal.
    apply filter_ext. intros ip. apply is_unresolved_any_pattern.
Qed.

Lemma C9_search_leaves_unresolved_alone_witness :
  re.search (re.compile sample.ca [re.IGNORECASE]) "24.2.2.2.ca" = true /\
  read_record sample.reader "24.2.2.2.ca" = Py.Ok None /\
  get_records sample.reader ["24.1.1.1"; "24.2.2.2.ca"]
    (Some (re.compile sample.ca [re.IGNORECASE])) [] "country"
  = Py.Ok ([("Canada (CA)", ["24.1.1.1"])], ["24.2.2.2.ca"]) /\
  In "24.2.2.2.ca" ["24.2.2.2.ca"].
Proof.
  split; [reflexivity|]. split; [reflexivity|]. split; [reflexivity|].
  refine (proj1 (C9_search_leaves_unresolved_alone sample.reader
                   ["24.1.1.1"; "24.2.2.2.ca"]
                   (Some (re.compile sample.ca [re.IGNORECASE])) [] "country"
                   [("Canada (CA)", ["24.1.1.1"])] ["24.2.2.2.ca"] eq_refl)
                "24.2.2.2.ca" _ _ eq_refl).
  - simpl. auto.
  - simpl. tauto.
Defined.

(* ================================================================== *)
(** * Order on sort keys *)
(* ================================================================== *)

Lemma ascii_compare_lt_trans (a b c : ascii) :
  Ascii.compare a b = Lt -> Ascii.compare b c = Lt -> Ascii.compare a c = Lt.
Proof.
  unfold Ascii.compare. rewrite !N.compare_lt_iff. lia.
Qed.

Lemma ascii_compare_refl (a : ascii) : Ascii.compare a a = Eq.
Proof. unfold Ascii.compare. apply N.compare_refl. Qed.

Lemma string_compare_refl (s : string) : String.compare s s = Eq.
Proof.
  induction s as [|c s IH]; simpl; [reflexivity|].
  now rewrite ascii_compare_refl.
Qed.

Lemma string_compare_lt_trans (a b c : string) :
  String.compare a b = Lt -> String.compare b c = Lt -> String.compare a c = Lt.
Proof.
  revert b c. induction a as [|x a IH]; intros [|y b] [|z c]; simpl;
    try discriminate; try reflexivity.
  destruct (Ascii.compare x y) eqn:Exy; try discriminate;
    destruct (Ascii.compare y z) eqn:Eyz; try discriminate; intros H1 H2.
  - apply Ascii.compare_eq_iff in Exy, Eyz. subst.
    rewrite ascii_compare_refl. eauto.
  - apply Ascii.compare_eq_iff in Exy. subst. now rewrite Eyz.
  - apply Ascii.compare_eq_iff in Eyz. subst. now rewrite Exy.
  - now rewrite (ascii_compare_lt_trans _ _ _ Exy Eyz).
Qed.

Lemma string_ltb_asym (a b : string) :
  String.ltb a b = true -> String.ltb b a = false.
Proof.
  unfold String.ltb. rewrite (String.compare_antisym b a).
  now destruct (String.compare a b).
Qed.

Lemma string_not_ltb_trans (a b c : string) :
  String.ltb a b = false -> String.ltb b c = false -> String.ltb a c = false.
Proof.
  unfold String.ltb. intros H1 H2.
  destruct (String.compare a c) eqn:Eac; try reflexivity.
  exfalso.
  rewrite (String.compare_antisym a b) in H1.
  destruct (String.compare b a) eqn:Eba; simpl in H1; try discriminate.
  - apply String.compare_eq_iff in Eba. subst. now rewrite Eac in H2.
  - now rewrite (string_compare_lt_trans _ _ _ Eba Eac) in H2.
Qed.

Lemma value_eqb_eq (a b : Py.value) : value_eqb a b = true <-> a = b.
Proof.
  destruct a, b; simpl; split; intros H; try discriminate.
  - apply Z.eqb_eq in H. now subst.
  - inversion H. apply Z.eqb_refl.
  - apply String.eqb_eq in H. now subst.
  - inversion H. apply String.eqb_refl.
Qed.

Lemma lt_irrefl (a : Py.value) : Py.lt a a = Py.Ok false.
Proof.
  destruct a; simpl; f_equal.
  - apply Z.ltb_irrefl.
  - unfold String.ltb. now rewrite string_compare_refl.
Qed.

Lemma lt_asym (a b : Py.value) :
  Py.lt a b = Py.Ok true -> not_smaller b a.
Proof.
  unfold not_smaller. destruct a, b; simpl; intros H; try discriminate; f_equal.
  - assert (E : (n <? n0)%Z = true) by congruence. lia.
  - apply string_ltb_asym. congruence.
Qed.

Lemma not_smaller_trans (a b c : Py.value) :
  not_smaller a b -> not_smaller b c -> not_smaller a c.
Proof.
  unfold not_smaller. destruct a, b, c; simpl; intros H1 H2;
    try discriminate; f_equal.
  - assert (E1 : (n <? n0)%Z = false) by congruence.
    assert (E2 : (n0 <? n1)%Z = false) by congruence. lia.
  - apply string_not_ltb_trans with (b := s0); congruence.
Qed.

Lemma lt_same_kind (a b : Py.value) :
  same_kind a b = true -> exists c, Py.lt a b = Py.Ok c.
Proof. destruct a, b; simpl; intros H; try discriminate; eauto. Qed.

Lemma same_kind_common (k a b : Py.value) :
  same_kind k a = true -> same_kind k b = true -> same_kind a b = true.
Proof. destruct k, a, b; simpl; congruence. Qed.

(* ================================================================== *)
(** * [sorted(..., reverse=True)] *)
(* ================================================================== *)

Lemma Forall_perm (A : Type) (P : A -> Prop) (r l : list A) :
  Permutation r l -> Forall P l -> Forall P r.
Proof.
  intros H F. rewrite Forall_forall in *. intros x Hx. apply F.
  now apply Permutation_in with (l := r).
Qed.

Section SortFacts.

Variable A : Type.
(** Some key of the kind that every key of the list has. *)
Variable k0 : Py.value.

Let item : Type := (Py.value * A)%type.
Let uniform (p : item) : Prop := same_kind k0 (fst p) = true.
Let ge (p q : item) : Prop := not_smaller (fst p) (fst q).
Let tied (v : Py.value) (p : item) : bool := value_eqb (fst p) v.

Lemma insert_rev_spec (x : item) (l : list item) :
  uniform x -> Forall uniform l -> StronglySorted ge l ->
  exists r,
    Py.insert_rev x l = Py.Ok r /\
    Permutation r (x :: l) /\
    StronglySorted ge r /\
    forall v, filter (tied v) r = filter (tied v) (x :: l).
Proof.
  intros Ux. induction l as [|y l IH]; intros Ul Sl.
  - exists [x]. simpl. repeat split; auto.
    repeat constructor.
  - inversion Ul as [|? ? Uy Ul']; subst.
    inversion Sl as [|? ? Sl' Hy]; subst.
    destruct (lt_same_kind _ _ (same_kind_common _ _ _ Ux Uy)) as [c Hc].
    simpl. rewrite Hc. simpl. destruct c.
    + destruct (IH Ul' Sl') as [r [E [P [S F]]]].
      rewrite E. simpl. exists (y :: r). split; [reflexivity|].
      split; [|split].
      * rewrite P. apply perm_swap.
      * constructor; [assumption|].
        apply Forall_perm with (l := x :: l); [assumption|].
        constructor; [|assumption]. now apply lt_asym.
      * intros v. simpl. rewrite F. simpl.
        destruct (tied v y) eqn:Ey; destruct (tied v x) eqn:Ex;
          try reflexivity.
        unfold tied in Ey, Ex. apply value_eqb_eq in Ey, Ex. rewrite <- Ey in Ex.
        rewrite Ex, lt_irrefl in Hc. discriminate.
    + exists (x :: y :: l). repeat split; auto.
      constructor; [assumption|].
      constructor; [exact Hc|].
      eapply Forall_impl; [|exact Hy].
      intros z Hz. now apply not_smaller_trans with (b := fst y).
Qed.

Lemma sort_rev_spec (l : list item) :
  Forall uniform l ->
  exists r,
    Py.sort_rev l = Py.Ok r /\
    Permutation r l /\
    StronglySorted ge r /\
    forall v, filter (tied v) r = filter (tied v) l.
Proof.
  induction l as [|x l IH]; intros Ul.
  - exists []. simpl. repeat split; auto. constructor.
  - inversion Ul as [|? ? Ux Ul']; subst.
    destruct (IH Ul') as [r [E [P [S F]]]].
    assert (Ur : Forall uniform r)
      by (apply Forall_perm with (l := l); assumption).
    destruct (insert_rev_spec x r Ux Ur S) as [r' [E' [P' [S' F']]]].
    exists r'. simpl. rewrite E. simpl. split; [exact E'|].
    split; [|split].
    + rewrite P'. now constructor.
    + exact S'.
    + intros v. rewrite F'. simpl. now rewrite F.
Qed.

Variable key : A -> Py.result Py.value.

Let keyed (p : item) : Prop := key (snd p) = Py.Ok (fst p).
Let key_ge (x y : A) : Prop :=
  exists kx ky, key x = Py.Ok kx /\ key y = Py.Ok ky /\ not_smaller kx ky.
Let key_tied (v : Py.value) (x : A) : bool :=
  match key x with
  | Py.Ok k => value_eqb k v
  | Py.Raise _ => false
  end.

Lemma decorate_spec (l : list A) :
  (forall x, In x l -> exists k, key x = Py.Ok k /\ same_kind k0 k = true) ->
  exists dl,
    Py.decorate key l = Py.Ok dl /\ map snd dl = l /\
    Forall keyed dl /\ Forall uniform dl.
Proof.
  induction l as [|x l IH]; intros H.
  - exists []. simpl. repeat split; constructor.
  - destruct (H x (or_introl eq_refl)) as [k [Ek Uk]].
    destruct IH as [dl [E [M [K U]]]]; [intros y Hy; apply H; now right|].
    exists ((k, x) :: dl). simpl. rewrite Ek. simpl. rewrite E. simpl.
    repeat split; try (constructor; assumption). now rewrite M.
Qed.

Lemma keyed_sorted (sl : list item) :
  Forall keyed sl -> StronglySorted ge sl -> StronglySorted key_ge (map snd sl).
Proof.
  intros K S. induction S as [|p sl S IH Hp]; simpl; [constructor|].
  inversion K as [|? ? Kp Ksl]; subst.
  constructor; [now apply IH|].
  apply Forall_forall. intros y Hy. apply in_map_iff in Hy.
  destruct Hy as [q [<- Hq]].
  rewrite Forall_forall in Hp, Ksl.
  exists (fst p), (fst q). repeat split; [exact Kp | now apply Ksl | now apply Hp].
Qed.

Lemma keyed_filter (v : Py.value) (sl : list item) :
  Forall keyed sl ->
  filter (key_tied v) (map snd sl) = map snd (filter (tied v) sl).
Proof.
  induction 1 as [|p sl Kp _ IH]; simpl; [reflexivity|].
  unfold key_tied at 1, tied at 1. rewrite Kp.
  destruct (value_eqb (fst p) v); simpl; now rewrite IH.
Qed.

(** [sorted(l, key=key, reverse=True)] returns when every key is computed
    and all keys are of one kind; the result has the elements of [l], in
    descending order of key, elements with equal keys in their order in [l]. *)
Lemma sorted_reverse_spec (l : list A) :
  (forall x, In x l -> exists k, key x = Py.Ok k /\ same_kind k0 k = true) ->
  exists r,
    Py.sorted_reverse key l = Py.Ok r /\
    Permutation r l /\
    StronglySorted key_ge r /\
    forall v, filter (key_tied v) r = filter (key_tied v) l.
Proof.
  intros H. destruct (decorate_spec l H) as [dl [E [M [K U]]]].
  destruct (sort_rev_spec dl U) as [sl [E' [P [S F]]]].
  assert (Ksl : Forall keyed sl)
    by (apply Forall_perm with (l := dl); assumption).
  exists (map snd sl). unfold Py.sorted_reverse. rewrite E. simpl.
  rewrite E'. simpl. split; [reflexivity|]. split; [|split].
  - rewrite <- M. now apply Permutation_map.
  - now apply keyed_sorted.
  - intros v. rewrite <- M, !keyed_filter by assumption. now rewrite F.
Qed.

End SortFacts.

(* ================================================================== *)
(** * Groups keyed by address *)
(* ================================================================== *)

Lemma lines_for_app (e1 e2 : list (string * list string)) (k : string) :
  lines_for (e1 ++ e2) k = (lines_for e1 k ++ lines_for e2 k)%list.
Proof. unfold lines_for. apply flat_map_app. Qed.

Lemma length_concat_repeat (A : Type) (b : list A) (n : nat) :
  List.length (List.concat (repeat b n)) = (List.length b * n)%nat.
Proof.
  induction n as [|n IH]; simpl; [lia|].
  rewrite length_app, IH. lia.
Qed.

Section ByAddress.

Variable reader : Reader.
Variable search_pattern : option re.Pattern.
Variable filtered_ips : list string.
Variable group_by : string.
Hypothesis by_address : by_attribute group_by = false.

Let fate := fate_of reader search_pattern filtered_ips.
Let entries := flat_map (contribution reader search_pattern filtered_ips group_by).

(** The lines under an address: its block, once per occurrence. *)
Lemma lines_for_by_address (ip_list : list string) (key : string) :
  lines_for (entries ip_list) key =
  match fate key with
  | Kept record =>
      List.concat (repeat (detail_block record) (count_occ string_dec ip_list key))
  | _ => []
  end.
Proof.
  induction ip_list as [|x rest IH].
  - simpl. now destruct (fate key).
  - change (entries (x :: rest))
      with (contribution reader search_pattern filtered_ips group_by x
            ++ entries rest)%list.
    rewrite lines_for_app, IH. unfold contribution. fold fate. simpl.
    destruct (string_dec x key) as [->|N].
    + destruct (fate key) eqn:F; simpl; try reflexivity.
      rewrite group_key_by_address by assumption.
      rewrite String.eqb_refl. unfold group_lines. rewrite by_address.
      now rewrite app_nil_r.
    + destruct (fate x) eqn:F; simpl; try reflexivity.
      rewrite group_key_by_address by assumption.
      eqb_cases key x; [congruence | reflexivity].
Qed.

Lemma group_by_address (ip_list : list string) (d : Py.dict) (u : list string)
  (key : string) (values : list string) :
  get_records reader ip_list search_pattern filtered_ips group_by = Py.Ok (d, u) ->
  In (key, values) d ->
  exists record,
    reader key = Py.Ok record /\
    (1 <= count_occ string_dec ip_list key)%nat /\
    values = List.concat (repeat (detail_block record)
                       (count_occ string_dec ip_list key)).
Proof.
  intros H Hin.
  assert (Agg : aggregated group_by key d).
  { unfold aggregated. rewrite by_address.
    change key with (fst (key, values)). now apply in_map. }
  destruct (buckets_by_fate _ _ _ _ _ _ _ key H) as [A _].
  apply A in Agg. destruct Agg as [Hip [record F]].
  apply get_records_Ok in H. destruct H as [-> _].
  apply In_get in Hin; [|apply NoDup_keys_build; constructor].
  rewrite get_build in Hin. simpl in Hin.
  fold entries in Hin.
  destruct (has_key (entries ip_list) key); [|discriminate].
  inversion Hin as [V]. rewrite lines_for_by_address. fold fate.
  unfold fate in *. rewrite F.
  apply fate_kept in F. destruct F as [_ [R _]].
  exists record. repeat split; [exact R|].
  now apply (count_occ_In string_dec).
Qed.

End ByAddress.

Lemma third_line_of_blocks (record : Model.t) (n : nat) :
  (1 <= n)%nat ->
  nth_error (List.concat (repeat (detail_block record) n)) 2
  = Some ("Country:    " ++ country_full record).
Proof. destruct n as [|n]; [lia | reflexivity]. Qed.

(* ================================================================== *)
(** * Sorting the groups *)
(* ================================================================== *)

Lemma sort_key_by_attribute (group_by : string) (x : string * list string) :
  by_attribute group_by = true ->
  sort_key group_by x = Py.Ok (Py.VInt (Z.of_nat (List.length (snd x)))).
Proof. unfold sort_key, by_attribute. now intros ->. Qed.

Lemma sort_key_by_address (reader : Reader) (ip_list : list string)
  (search_pattern : option re.Pattern) (filtered_ips : list string)
  (group_by : string) (d : Py.dict) (u : list string) (x : string * list string) :
  by_attribute group_by = false ->
  get_records reader ip_list search_pattern filtered_ips group_by = Py.Ok (d, u) ->
  In x d ->
  exists record,
    reader (fst x) = Py.Ok record /\
    sort_key group_by x = Py.Ok (Py.VStr ("Country:    " ++ country_full record)).
Proof.
  intros G H Hin. destruct x as [key values].
  destruct (group_by_address _ _ _ _ G _ _ _ _ _ H Hin) as [record [R [N V]]].
  exists record. split; [exact R|].
  unfold sort_key. unfold by_attribute in G. rewrite G. cbn [snd].
  rewrite V, third_line_of_blocks by assumption. reflexivity.
Qed.

(** The sort of line 217 returns, and what it returns. *)
Lemma sorted_dict_spec (reader : Reader) (ip_list : list string)
  (search_pattern : option re.Pattern) (filtered_ips : list string)
  (group_by : string) (d : Py.dict) (u : list string) :
  get_records reader ip_list search_pattern filtered_ips group_by = Py.Ok (d, u) ->
  exists groups,
    sorted_dict group_by d = Py.Ok groups /\
    Permutation groups d /\
    descending group_by groups /\
    ties_keep_order group_by d groups.
Proof.
  intros H.
  assert (K : exists k0, forall x, In x d ->
               exists k, sort_key group_by x = Py.Ok k /\ same_kind k0 k = true).
  { destruct (by_attribute group_by) eqn:G.
    - exists (Py.VInt 0). intros x _. rewrite sort_key_by_attribute by assumption.
      eauto.
    - exists (Py.VStr EmptyString). intros x Hin.
      destruct (sort_key_by_address _ _ _ _ _ _ _ _ G H Hin) as [record [_ E]].
      rewrite E. eauto. }
  destruct K as [k0 K].
  destruct (sorted_reverse_spec _ k0 (sort_key group_by) d K) as [r [E [P [S F]]]].
  exists r. unfold sorted_dict. rewrite E. simpl.
  rewrite dict_of_items_NoDup.
  - repeat split; assumption.
  - apply get_records_Ok in H. destruct H as [-> _].
    apply Permutation_NoDup with (l := Py.keys (build [] (flat_map
      (contribution reader search_pattern filtered_ips group_by) ip_list))).
    + apply Permutation_map. now symmetry.
    + apply NoDup_keys_build. constructor.
Qed.

(** C10: grouping by address, every list of the result mapping is the
    address's five-line block repeated once per occurrence of the address in
    the input, so its length is five times a positive number; index 2 is in
    bounds and holds a string, the sort of line 217 returns, and the report
    ends normally. *)
Theorem C10_blocks_of_five (reader : Reader) (ip_list : list string)
  (search_pattern : option re.Pattern) (filtered_ips : list string)
  (group_by : string) (d : Py.dict) (u : list string) :
  by_attribute group_by = false ->
  get_records reader ip_list search_pattern filtered_ips group_by = Py.Ok (d, u) ->
  (forall key values,
      In (key, values) d ->
      exists record n,
        reader key = Py.Ok record /\
        n = count_occ string_dec ip_list key /\ (1 <= n)%nat /\
        values = List.concat (repeat (detail_block record) n) /\
        List.length values = (5 * n)%nat /\ (5 <= List.length values)%nat /\
        exists line,
          nth_error values 2 = Some line /\
          sort_key group_by (key, values) = Py.Ok (Py.VStr line)) /\
  (exists groups, sorted_dict group_by d = Py.Ok groups) /\
  (forall show_not_found, exists stdout,
      report group_by show_not_found d u = Returned 0 stdout).
Proof.
  intros G H. split; [|split].
  - intros key values Hin.
    destruct (group_by_address _ _ _ _ G _ _ _ _ _ H Hin) as [record [R [N V]]].
    exists record, (count_occ string_dec ip_list key).
    assert (L : List.length values = (5 * count_occ string_dec ip_list key)%nat)
      by (rewrite V, length_concat_repeat; reflexivity).
    repeat split; try assumption; try lia.
    exists ("Country:    " ++ country_full record).
    destruct (sort_key_by_address _ _ _ _ _ _ _ _ G H Hin) as [record' [R' E]].
    simpl in R'. rewrite R in R'. inversion R'; subst record'.
    split; [|exact E].
    rewrite V. now apply third_line_of_blocks.
  - destruct (sorted_dict_spec _ _ _ _ _ _ _ H) as [groups [E _]]. eauto.
  - intros show_not_found. unfold report.
    destruct (sorted_dict_spec _ _ _ _ _ _ _ H) as [groups [E _]].
    rewrite E. destruct d; eauto.
Qed.

Lemma C10_blocks_of_five_witness :
  by_attribute "ip_address" = false /\
  get_records sample.reader ["8.8.8.8"; "127.0.0.1"; "8.8.8.8"] None [] "ip_address"
  = Py.Ok ([("8.8.8.8", (detail_block sample.us ++ detail_block sample.us)%list)],
           ["127.0.0.1"]) /\
  exists groups,
    sorted_dict "ip_address"
      [("8.8.8.8", (detail_block sample.us ++ detail_block sample.us)%list)]
    = Py.Ok groups.
Proof.
  split; [reflexivity|]. split; [reflexivity|].
  exact (proj1 (proj2 (C10_blocks_of_five sample.reader
                         ["8.8.8.8"; "127.0.0.1"; "8.8.8.8"] None [] "ip_address"
                         [("8.8.8.8",
                           (detail_block sample.us ++ detail_block sample.us)%list)]
                         ["127.0.0.1"] eq_refl eq_refl))).
Defined.

(** C2 (amended): when the result mapping is not empty, the groups are
    printed in the order the sort returns, which has the same groups, in
    descending order of the sort key, groups with equal keys in the order
    the grouping produced.  The key is the number of accumulated entries
    when grouping by country, state/region or city; when grouping by address
    it is the third line of the detail block, which is the line
    "Country:    <country string>" (not the radius line), compared as a
    string. *)
Theorem C2_groups_sorted (reader : Reader) (ip_list : list string)
  (search_pattern : option re.Pattern) (filtered_ips : list string)
  (group_by : string) (d : Py.dict) (u : list string) :
  get_records reader ip_list search_pattern filtered_ips group_by = Py.Ok (d, u) ->
  d <> [] ->
  exists groups,
    sorted_dict group_by d = Py.Ok groups /\
    (forall show_not_found,
        report group_by show_not_found d u
        = Returned 0 (print_groups groups ++ print_not_found show_not_found u)%list) /\
    Permutation groups d /\
    descending group_by groups /\
    ties_keep_order group_by d groups /\
    (forall key values,
        In (key, values) d ->
        if by_attribute group_by
        then sort_key group_by (key, values)
             = Py.Ok (Py.VInt (Z.of_nat (List.length values)))
        else exists record,
            reader key = Py.Ok record /\
            nth_error (detail_block record) 2
            = Some ("Country:    " ++ country_full record) /\
            sort_key group_by (key, values)
            = Py.Ok (Py.VStr ("Country:    " ++ country_full record))).
Proof.
  intros H Hne.
  destruct (sorted_dict_spec _ _ _ _ _ _ _ H) as [groups [E [P [S T]]]].
  exists groups. split; [exact E|]. split; [|repeat split; try assumption].
  - intros show_not_found. unfold report. rewrite E.
    destruct d; [congruence | reflexivity].
  - intros key values Hin. destruct (by_attribute group_by) eqn:G.
    + now apply sort_key_by_attribute.
    + destruct (sort_key_by_address _ _ _ _ _ _ _ _ G H Hin) as [record [R K]].
      exists record. repeat split; assumption.
Qed.

Lemma C2_groups_sorted_witness :
  get_records sample.reader ["6.6.6.6"; "5.5.5.5"] None [] "ip_address"
  = Py.Ok ([("6.6.6.6", detail_block sample.at_); ("5.5.5.5", detail_block sample.zw)],
           []) /\
  exists groups,
    sorted_dict "ip_address"
      [("6.6.6.6", detail_block sample.at_); ("5.5.5.5", detail_block sample.zw)]
    = Py.Ok groups /\
    descending "ip_address" groups.
Proof.
  split; [reflexivity|].
  destruct (C2_groups_sorted sample.reader ["6.6.6.6"; "5.5.5.5"] None [] "ip_address"
              [("6.6.6.6", detail_block sample.at_);
               ("5.5.5.5", detail_block sample.zw)] [] eq_refl)
    as [groups [E [_ [_ [S _]]]]].
  - discriminate.
  - exists groups. split; assumption.
Defined.

(** C2 as stated fails: grouping by address, Zimbabwe (radius 100) is
    printed before Austria (radius 200). *)
Lemma C2_counterexample :
  ~ stated.sorted_by_radius sample.reader ["6.6.6.6"; "5.5.5.5"] None [] "ip_address".
Proof.
  intros H.
  specialize (H [("6.6.6.6", detail_block sample.at_);
                 ("5.5.5.5", detail_block sample.zw)] []
                [("5.5.5.5", detail_block sample.zw);
                 ("6.6.6.6", detail_block sample.at_)]
                eq_refl eq_refl eq_refl).
  inversion H as [|x l _ F]; subst.
  inversion F as [|y l' Hxy _]; subst.
  vm_compute in Hxy. now apply Hxy.
Qed.

(* ================================================================== *)
(** * Matching under IGNORECASE *)
(* ================================================================== *)

Lemma upper_lower (c : ascii) : re.upper (re.lower c) = re.upper c.
Proof. destruct c as [[] [] [] [] [] [] [] []]; reflexivity. Qed.

Lemma accepts_fold (negate : bool) (rs : list (ascii * ascii)) (c c' : ascii) :
  re.lower c = re.lower c' ->
  re.accepts true negate rs c = re.accepts true negate rs c'.
Proof.
  intros E. unfold re.accepts.
  now rewrite <- (upper_lower c), <- (upper_lower c'), E.
Qed.

Lemma lower_str_length (s t : string) :
  re.lower_str s = re.lower_str t -> String.length s = String.length t.
Proof.
  revert t. induction s as [|c s IH]; intros [|c' t]; simpl; intros E;
    try discriminate; [reflexivity|].
  inversion E. f_equal. auto.
Qed.

Section IgnoreCase.

Variable A : Type.

(** Two continuations that cannot tell letter case apart. *)
Let blind (k k' : string -> option A) : Prop :=
  forall t t', re.lower_str t = re.lower_str t' -> k t = k' t'.

Lemma bt_fold (r : re.regex) :
  forall s s' k k',
    re.lower_str s = re.lower_str s' -> blind k k' ->
    re.bt true r s k = re.bt true r s' k'.
Proof.
  induction r as [|negate rs|r1 IH1 r2 IH2|r1 IH1 r2 IH2|r1 IH1];
    intros s s' k k' E B.
  - simpl. now apply B.
  - destruct s as [|c s], s' as [|c' s']; simpl in *; try discriminate;
      [reflexivity|].
    inversion E as [[Ec Es]].
    rewrite (accepts_fold negate rs c c' Ec).
    destruct (re.accepts true negate rs c'); [now apply B | reflexivity].
  - simpl. apply IH1; [assumption|].
    intros t t' Et. now apply IH2.
  - simpl. rewrite (IH1 s s' k k' E B), (IH2 s s' k k' E B). reflexivity.
  - simpl. rewrite (lower_str_length _ _ E).
    generalize (String.length s') as n. intros n. revert s s' E.
    induction n as [|n IHn]; intros s s' E; [now apply B|].
    match goal with
    | |- match ?a with _ => _ end = match ?b with _ => _ end =>
        assert (X : a = b)
    end.
    + apply IH1; [assumption|].
      intros t t' Et.
      rewrite (lower_str_length _ _ Et), (lower_str_length _ _ E).
      destruct (Nat.ltb (String.length t') (String.length s'));
        [now apply IHn | reflexivity].
    + now rewrite X, (B s s' E).
Qed.

End IgnoreCase.

Lemma search_from_fold (r : re.regex) (s s' : string) :
  re.lower_str s = re.lower_str s' ->
  re.search_from true r s = re.search_from true r s'.
Proof.
  revert s'. induction s as [|c s IH]; intros [|c' s'] E; simpl in E;
    try discriminate.
  - reflexivity.
  - inversion E as [[Ec Es]]. simpl.
    rewrite (bt_fold unit r (String c s) (String c' s')
               (fun _ => Some tt) (fun _ => Some tt)); [|exact E|reflexivity].
    now rewrite (IH s' Es).
Qed.

(** A pattern compiled with IGNORECASE cannot tell letter case apart. *)
Lemma search_ignorecase (r : re.regex) (s s' : string) :
  re.lower_str s = re.lower_str s' ->
  re.search (re.compile r [re.IGNORECASE]) s
  = re.search (re.compile r [re.IGNORECASE]) s'.
Proof. apply search_from_fold. Qed.

(* ================================================================== *)
(** * The fields of a found record *)
(* ================================================================== *)

Lemma string_length_app (s t : string) :
  String.length (s ++ t) = (String.length s + String.length t)%nat.
Proof. induction s as [|c s IH]; simpl; [reflexivity | now rewrite IH]. Qed.

Lemma length_string_of_list_ascii (l : list ascii) :
  String.length (string_of_list_ascii l) = List.length l.
Proof. induction l as [|c l IH]; simpl; [reflexivity | now rewrite IH]. Qed.

Lemma rjust_length (fill : ascii) (width : nat) (s : string) :
  (width <= String.length (Py.rjust fill width s))%nat.
Proof.
  unfold Py.rjust.
  rewrite string_length_app, length_string_of_list_ascii, repeat_length. lia.
Qed.

Lemma rjust_wide (fill : ascii) (width : nat) (s : string) :
  (width <= String.length s)%nat -> Py.rjust fill width s = s.
Proof.
  intros H. unfold Py.rjust.
  replace (width - String.length s)%nat with 0%nat by lia. reflexivity.
Qed.

(** The field width 3 of the format never pads: nine decimals are longer. *)
Lemma format_coordinate (x : Py.float) :
  Py.format_fill_right_f "0" 3 9 x = Py.format_f 9 x.
Proof.
  unfold Py.format_fill_right_f. apply rjust_wide.
  unfold Py.format_f. rewrite !string_length_app.
  pose proof (rjust_length "0" 9
                (Py.str_int (Py.scaled 9 x mod 10 ^ Z.of_nat 9))) as L.
  cbn [String.length]. lia.
Qed.

(** The first line of the block: a URL when both coordinates are present
    and neither is zero, and Null in every other case. *)
Lemma maps_url_spec (record : Model.t) :
  maps_url record =
  match Location.latitude (Model.location record),
        Location.longitude (Model.location record) with
  | Some la, Some lo =>
      if ((Py.mant la =? 0)%Z || (Py.mant lo =? 0)%Z)%bool then "Null"
      else "https://maps.google.com/maps?q=" ++ Py.format_f 9 la ++ ","
           ++ Py.format_f 9 lo ++ "&z=15"
  | _, _ => "Null"
  end.
Proof.
  unfold maps_url.
  destruct (Location.latitude (Model.location record)) as [la|];
    destruct (Location.longitude (Model.location record)) as [lo|];
    simpl; try reflexivity.
  - unfold Py.truthy_float. rewrite !format_coordinate.
    destruct (Py.mant la =? 0)%Z, (Py.mant lo =? 0)%Z; reflexivity.
  - now destruct (Py.truthy_float la).
Qed.

Example maps_url_us :
  maps_url sample.us
  = "https://maps.google.com/maps?q=37.751000000,-97.822000000&z=15".
Proof. reflexivity. Qed.

(** C3: the claim asks for a URL whenever both coordinates are present.
    For the record of 41.1.1.1, whose latitude is 0.0 and whose longitude is
    9.5, both present, the script prints Null as the first line. *)
Theorem C3_zero_latitude_prints_Null :
  Location.latitude (Model.location sample.equator) = Some (sample.mk_float 0 0) /\
  Location.longitude (Model.location sample.equator) = Some (sample.mk_float 19 (-1)) /\
  maps_url sample.equator = "Null" /\
  get_records sample.reader ["41.1.1.1"] None [] "ip_address"
  = Py.Ok ([("41.1.1.1",
             ["Maps URL:   Null";
              "Radius(km): 20";
              "Country:    Gabon (GA)";
              "State:      Unknown";
              "City:       Libreville"])],
           []).
Proof. repeat split. Qed.

Lemma append_empty_r (s : string) : s ++ EmptyString = s.
Proof. induction s as [|c s IH]; simpl; [reflexivity | now rewrite IH]. Qed.

Lemma str_int_not_empty (n : Z) : Py.str_int n <> EmptyString.
Proof.
  unfold Py.str_int.
  destruct (Z.to_int n) as [d|d]; simpl; [|discriminate].
  destruct d; discriminate.
Qed.

(** C5 (amended): for a found record, a missing city, state/region or
    country name becomes "Unknown" and a missing accuracy radius becomes
    "Null"; a name that is present is used as it is; the radius and the map
    line are never empty.  The country ISO code is not given a placeholder:
    when it is missing the suffix is the empty string and the country string
    is the bare country name; when present it is " (code)". *)
Theorem C5_missing_fields (record : Model.t) :
  (City.name (Model.city record) = None -> city record = "Unknown") /\
  (Subdivision.name (Subdivisions.most_specific (Model.subdivisions record)) = None ->
   state record = "Unknown") /\
  (Country.name (Model.country record) = None -> country_name record = "Unknown") /\
  (Location.accuracy_radius (Model.location record) = None -> radius record = "Null") /\
  (Location.latitude (Model.location record) = None \/
   Location.longitude (Model.location record) = None -> maps_url record = "Null") /\
  (forall n, City.name (Model.city record) = Some n -> city record = n) /\
  (forall n, Subdivision.name (Subdivisions.most_specific (Model.subdivisions record))
             = Some n -> state record = n) /\
  (forall n, Country.name (Model.country record) = Some n -> country_name record = n) /\
  radius record <> EmptyString /\ maps_url record <> EmptyString /\
  (Country.iso_code (Model.country record) = None ->
   country_iso record = EmptyString /\ country_full record = country_name record) /\
  (forall c, Country.iso_code (Model.country record) = Some c ->
             country_full record = country_name record ++ " (" ++ c ++ ")").
Proof.
  unfold city, state, country_name, country_full, country_iso, radius.
  repeat match goal with |- _ /\ _ => split end;
    try (intros n H; now rewrite H); try (intros H; now rewrite H).
  - intros [H|H]; rewrite maps_url_spec, H; [reflexivity|].
    now destruct (Location.latitude (Model.location record)).
  - destruct (Location.accuracy_radius (Model.location record));
      [apply str_int_not_empty | discriminate].
  - rewrite maps_url_spec.
    destruct (Location.latitude (Model.location record)) as [la|];
      [|discriminate].
    destruct (Location.longitude (Model.location record)) as [lo|];
      [|discriminate].
    destruct ((Py.mant la =? 0)%Z || (Py.mant lo =? 0)%Z)%bool; discriminate.
  - intros H. rewrite H. split; [reflexivity|].
    unfold country_name. apply append_empty_r.
Qed.

Lemma C5_missing_fields_witness :
  city sample.blank = "Unknown" /\ state sample.blank = "Unknown" /\
  country_name sample.blank = "Unknown" /\ radius sample.blank = "Null" /\
  country_iso sample.blank = EmptyString /\ country_full sample.blank = "Unknown".
Proof.
  destruct (C5_missing_fields sample.blank)
    as [C [S [N [R [_ [_ [_ [_ [_ [_ [I _]]]]]]]]]]].
  destruct (I eq_refl) as [I1 I2].
  split; [exact (C eq_refl)|]. split; [exact (S eq_refl)|].
  split; [exact (N eq_refl)|]. split; [exact (R eq_refl)|].
  split; [exact I1|].
  rewrite I2. exact (N eq_refl).
Defined.

(** C5 as stated fails: a missing ISO code leaves nothing behind. *)
Lemma C5_counterexample : ~ stated.no_field_left_empty sample.blank.
Proof.
  intros [_ [_ [_ [_ H]]]]. now apply H.
Qed.

(* ================================================================== *)
(** * The search filter *)
(* ================================================================== *)

Lemma any_true (l : list bool) : Py.any l = true <-> In true l.
Proof.
  unfold Py.any. rewrite existsb_exists. split.
  - intros [b [Hb E]]. now subst.
  - intros H. now exists true.
Qed.

Lemma add_record_spec (p : re.Pattern) (record : Model.t) (ip : string) :
  add_record (Some p) record ip = true <->
  exists text,
    In text [country_full record; state record; city record; ip] /\
    re.search p text = true.
Proof.
  unfold add_record. rewrite any_true. simpl. split.
  - intros [H|[H|[H|[H|[]]]]]; eauto 10.
  - intros [text [[<-|[<-|[<-|[<-|[]]]]] H]]; rewrite H; auto.
Qed.

(** C6: with --search given, the pattern is compiled with IGNORECASE, so
    that its matches do not depend on letter case, and a found record passes
    exactly when the pattern matches the composed country string, the state
    name, the city name or the address itself; without --search every found
    record passes.  A found record of an address that is not excluded is
    aggregated exactly when it passes. *)
Theorem C6_search_filter (args : Args.t) (record : Model.t) (ip : string) :
  (forall r,
      Args.search args = Some r ->
      search_pattern_of args = Some (re.compile r [re.IGNORECASE]) /\
      (add_record (search_pattern_of args) record ip = true <->
       exists text,
         In text [country_full record; state record; city record; ip] /\
         re.search (re.compile r [re.IGNORECASE]) text = true) /\
      (forall text text',
          re.lower_str text = re.lower_str text' ->
          re.search (re.compile r [re.IGNORECASE]) text
          = re.search (re.compile r [re.IGNORECASE]) text')) /\
  (Args.search args = None ->
   search_pattern_of args = None /\
   add_record (search_pattern_of args) record ip = true) /\
  (forall reader ip_list filtered_ips group_by d u,
      get_records reader ip_list (search_pattern_of args) filtered_ips group_by
      = Py.Ok (d, u) ->
      In ip ip_list -> ~ In ip filtered_ips -> reader ip = Py.Ok record ->
      (aggregated group_by ip d <->
       add_record (search_pattern_of args) record ip = true)).
Proof.
  split; [|split].
  - intros r E. unfold search_pattern_of. rewrite E.
    split; [reflexivity|]. split.
    + apply add_record_spec.
    + apply search_ignorecase.
  - intros E. unfold search_pattern_of. rewrite E. split; reflexivity.
  - intros reader ip_list filtered_ips group_by d u H Hin Hex R.
    apply contains_false in Hex.
    destruct (buckets_by_fate _ _ _ _ _ _ _ ip H) as [A _]. rewrite A.
    split.
    + intros [_ [record' F]]. apply fate_kept in F.
      destruct F as [_ [R' K]]. rewrite R in R'. inversion R'. now subst.
    + intros K. split; [assumption|]. exists record. apply fate_kept. auto.
Qed.

Lemma C6_search_filter_witness :
  Args.search (sample.args_ip "24.1.1.1" (Some sample.ca)) = Some sample.ca /\
  re.search (re.compile sample.ca [re.IGNORECASE]) (country_full sample.canada) = true /\
  add_record (search_pattern_of (sample.args_ip "24.1.1.1" (Some sample.ca)))
    sample.canada "24.1.1.1" = true.
Proof.
  split; [reflexivity|]. split; [reflexivity|].
  destruct (C6_search_filter (sample.args_ip "24.1.1.1" (Some sample.ca))
              sample.canada "24.1.1.1") as [With _].
  destruct (With sample.ca eq_refl) as [_ [Keep _]].
  apply Keep. exists (country_full sample.canada). split; [|reflexivity].
  simpl. auto.
Defined.

Example search_rejects_us :
  get_records sample.reader ["8.8.8.8"; "24.1.1.1"]
    (Some (re.compile sample.ca [re.IGNORECASE])) [] "country"
  = Py.Ok ([("Canada (CA)", ["24.1.1.1"])], []).
Proof. reflexivity. Qed.

(* ================================================================== *)
(** * The limit on addresses read from a file *)
(* ================================================================== *)

(** C8: when the addresses come from a file, a limit of 0 or below leaves
    the list of matches whole, and a positive limit N keeps the first N
    matches, in the order of the file. *)
Theorem C8_limit (args : Args.t) (file : Path.t) :
  Py.truthy_opt Py.truthy_str (Args.ip args) = false ->
  Args.file args = Some file ->
  Path.is_file file = true ->
  Path.st_size file <> 0%Z ->
  ((Args.limit args <= 0)%Z ->
   ip_list_of args = inr (re.findall pattern (Path.read_text file))) /\
  ((0 < Args.limit args)%Z ->
   ip_list_of args
   = inr (firstn (Z.to_nat (Args.limit args))
            (re.findall pattern (Path.read_text file))) /\
   forall ip_list,
     ip_list_of args = inr ip_list ->
     List.length ip_list
     = Nat.min (Z.to_nat (Args.limit args))
         (List.length (re.findall pattern (Path.read_text file)))).
Proof.
  intros Hip Hfile Hisfile Hsize.
  assert (E : forall stop,
             (if (Args.limit args <? 1)%Z then None else Some (Args.limit args)) = stop ->
             ip_list_of args
             = inr (Py.slice_to (re.findall pattern (Path.read_text file)) stop)).
  { intros stop <-. unfold ip_list_of. rewrite Hip, Hfile, Hisfile. simpl.
    apply Z.eqb_neq in Hsize. now rewrite Hsize. }
  split.
  - intros L. rewrite (E None); [reflexivity|].
    destruct (Z.ltb_spec (Args.limit args) 1); [reflexivity | lia].
  - intros L.
    assert (E' : ip_list_of args
                 = inr (firstn (Z.to_nat (Args.limit args))
                          (re.findall pattern (Path.read_text file)))).
    { rewrite (E (Some (Args.limit args))).
      - unfold Py.slice_to.
        destruct (Z.ltb_spec (Args.limit args) 0); [lia | reflexivity].
      - destruct (Z.ltb_spec (Args.limit args) 1); [lia | reflexivity]. }
    split; [exact E'|].
    intros ip_list H. rewrite E' in H. inversion H.
    apply length_firstn.
Qed.

Lemma C8_limit_witness :
  re.findall pattern (Path.read_text sample.log_file)
  = ["1.1.1.1"; "2.2.2.2"; "3.3.3.3"; "4.4.4.4"; "5.5.5.5";
     "6.6.6.6"; "7.7.7.7"; "8.8.8.8"; "9.9.9.9"; "10.10.10.10"] /\
  ip_list_of (sample.args_file 3) = inr ["1.1.1.1"; "2.2.2.2"; "3.3.3.3"] /\
  ip_list_of (sample.args_file 0)
  = inr (re.findall pattern (Path.read_text sample.log_file)) /\
  ip_list_of (sample.args_file (-5))
  = inr (re.findall pattern (Path.read_text sample.log_file)).
Proof.
  split; [reflexivity|].
  assert (N : Path.st_size sample.log_file <> 0%Z) by discriminate.
  split; [|split].
  - destruct (C8_limit (sample.args_file 3) sample.log_file
                eq_refl eq_refl eq_refl N) as [_ Pos].
    destruct (Pos eq_refl) as [E _]. exact E.
  - destruct (C8_limit (sample.args_file 0) sample.log_file
                eq_refl eq_refl eq_refl N) as [Zero _].
    apply Zero. discriminate.
  - destruct (C8_limit (sample.args_file (-5)) sample.log_file
                eq_refl eq_refl eq_refl N) as [Neg _].
    apply Neg. discriminate.
Defined.

(* ================================================================== *)
(** * Whole runs *)
(* ================================================================== *)

(** [--ip 127.0.0.1 --show-missing], the address not being in the database. *)
Example run_unresolved :
  main (fun _ => Py.Ok sample.reader)
    {| Args.ip := Some "127.0.0.1"; Args.file := None; Args.db := "db.mmdb";
       Args.group := "ip_address"; Args.search := None; Args.filter := None;
       Args.limit := 0; Args.show_not_found := true |}
  = Returned 0 ["No records found";
                nl ++ "IP addresses not found:";
                "     127.0.0.1"].
Proof. reflexivity. Qed.

(** [--filter 8.8.8.8 --ip 8.8.8.8 --show-missing] *)
Example run_excluded :
  main (fun _ => Py.Ok sample.reader)
    {| Args.ip := Some "8.8.8.8"; Args.file := None; Args.db := "db.mmdb";
       Args.group := "ip_address"; Args.search := None;
       Args.filter := Some ["8.8.8.8"];
       Args.limit := 0; Args.show_not_found := true |}
  = Returned 0 ["No records found"].
Proof. reflexivity. Qed.

(** [--file log --group country --limit 6 --show-missing]: of the first
    six addresses of the file, two are known. *)
Example run_by_country :
  main (fun _ => Py.Ok sample.reader) (sample.args_file 6)
  = Returned 0 [nl ++ " Zimbabwe"; "     5.5.5.5";
                nl ++ " Austria (AT)"; "     6.6.6.6";
                nl ++ "IP addresses not found:";
                "     1.1.1.1"; "     2.2.2.2"; "     3.3.3.3"; "     4.4.4.4"].
Proof. reflexivity. Qed.

(** Without the limit the lookup of 7.7.7.7 raises, and the run is lost. *)
Example run_fatal :
  main (fun _ => Py.Ok sample.reader) (sample.args_file 0)
  = Returned 2 ["ERROR:  corrupt database"].
Proof. reflexivity. Qed.

(** The database cannot be opened. *)
Example run_no_database :
  main (fun _ => Py.Raise (Py.OtherError "No such file or directory"))
    (sample.args_file 3)
  = Returned 2 ["ERROR:  No such file or directory"].
Proof. reflexivity. Qed.

(** Groups of equal size stay in the order of their first address. *)
Example run_ties :
  main (fun _ => Py.Ok sample.reader)
    {| Args.ip := None;
       Args.file := Some {| Path.is_file := true; Path.st_size := 39;
                            Path.read_text :=
                              "8.8.8.8 6.6.6.6 24.1.1.1 6.6.6.6 1.2.3.4" |};
       Args.db := "db.mmdb"; Args.group := "country"; Args.search := None;
       Args.filter := None; Args.limit := 0; Args.show_not_found := false |}
  = Returned 0 [nl ++ " Austria (AT)"; "     6.6.6.6"; "     6.6.6.6";
                nl ++ " United States (US)"; "     8.8.8.8";
                nl ++ " Canada (CA)"; "     24.1.1.1";
                nl ++ " Australia (AU)"; "     1.2.3.4"].
Proof. reflexivity. Qed.

(** The address pattern is a shape test only: octets above 255 pass and a
    match may start inside a longer run of digits. *)
Example findall_shapes :
  re.findall pattern
    "8.8.8.8 not-an-ip 1.2.3.4 1234.5.6.7.8 999.999.999.9999 1.2.3.4.5.6.7.8 ..1.2.3"
  = ["8.8.8.8"; "1.2.3.4"; "234.5.6.7"; "999.999.999.999"; "1.2.3.4"; "5.6.7.8"].
Proof. reflexivity. Qed.

(** What the slice would do with the raw limit: this is why [main] turns a
    limit below 1 into [None] first. *)
Example slice_raw_limit :
  Py.slice_to ["a"; "b"; "c"; "d"; "e"] (Some 0%Z) = [] /\
  Py.slice_to ["a"; "b"; "c"; "d"; "e"] (Some (-2)%Z) = ["a"; "b"; "c"] /\
  Py.slice_to ["a"; "b"; "c"; "d"; "e"] None = ["a"; "b"; "c"; "d"; "e"].
Proof. repeat split. Qed.

(* ================================================================== *)
(** * Grouping, seen from the input list *)
(* ================================================================== *)

Import grouping.

Lemma is_kept_fate (reader : Reader) (search_pattern : option re.Pattern)
  (filtered_ips : list string) (ip : string) :
  is_kept reader search_pattern filtered_ips ip =
  match fate_of reader search_pattern filtered_ips ip with
  | Kept _ => true
  | _ => false
  end.
Proof.
  unfold is_kept, fate_of, read_record.
  destruct (Py.contains filtered_ips ip); [reflexivity|].
  destruct (reader ip) as [r|[]]; simpl; try reflexivity.
  now destruct (add_record search_pattern r ip).
Qed.

Lemma is_missing_fate (reader : Reader) (search_pattern : option re.Pattern)
  (filtered_ips : list string) (ip : string) :
  is_unresolved reader search_pattern filtered_ips ip
  = is_missing reader filtered_ips ip.
Proof.
  unfold is_unresolved, is_missing, fate_of.
  destruct (Py.contains filtered_ips ip); [reflexivity|].
  destruct (read_record reader ip) as [[r|]|e]; simpl; try reflexivity.
  now destruct (add_record search_pattern r ip).
Qed.

Lemma key_of_kept (reader : Reader) (search_pattern : option re.Pattern)
  (filtered_ips : list string) (group_by : string) (ip : string) (record : Model.t) :
  fate_of reader search_pattern filtered_ips ip = Kept record ->
  key_of reader group_by ip = group_key group_by record ip.
Proof.
  intros F. apply fate_kept in F. destruct F as [_ [R _]].
  unfold key_of. now rewrite R.
Qed.

Section GroupingFacts.

Variable reader : Reader.
Variable search_pattern : option re.Pattern.
Variable filtered_ips : list string.
Variable group_by : string.

Let fate := fate_of reader search_pattern filtered_ips.
Let entries := flat_map (contribution reader search_pattern filtered_ips group_by).
Let kept := is_kept reader search_pattern filtered_ips.

Lemma entries_cons (ip : string) (rest : list string) :
  entries (ip :: rest)
  = (contribution reader search_pattern filtered_ips group_by ip ++ entries rest)%list.
Proof. reflexivity. Qed.

(** The keys of the contributions are the keys of the kept addresses. *)
Lemma keys_of_entries (ip_list : list string) :
  map fst (entries ip_list) = map (key_of reader group_by) (filter kept ip_list).
Proof.
  induction ip_list as [|ip rest IH]; [reflexivity|].
  rewrite entries_cons, map_app, IH. simpl.
  unfold kept at 2. rewrite is_kept_fate. unfold contribution.
  destruct (fate_of reader search_pattern filtered_ips ip) eqn:F; try reflexivity.
  simpl. now rewrite (key_of_kept _ _ _ group_by _ _ F).
Qed.

(** Grouping by attribute, the list under a key holds the kept addresses
    filed under that key, in input order. *)
Lemma lines_for_by_attribute (ip_list : list string) (k : string) :
  by_attribute group_by = true ->
  lines_for (entries ip_list) k
  = filter (lands_in reader search_pattern filtered_ips group_by k) ip_list.
Proof.
  intros G. induction ip_list as [|ip rest IH]; [reflexivity|].
  rewrite entries_cons, lines_for_app, IH. simpl.
  unfold lands_in at 2. rewrite is_kept_fate. unfold contribution.
  destruct (fate_of reader search_pattern filtered_ips ip) eqn:F; try reflexivity.
  rewrite (key_of_kept _ _ _ group_by _ _ F).
  unfold group_lines. rewrite G. simpl.
  rewrite (String.eqb_sym k).
  now destruct (String.eqb (group_key group_by record ip) k).
Qed.

Lemma has_key_entries (ip_list : list string) (k : string) :
  has_key (entries ip_list) k = true <->
  exists ip, In ip ip_list /\ kept ip = true /\ key_of reader group_by ip = k.
Proof.
  rewrite has_key_true. split.
  - intros [e [He Hk]].
    apply In_entries in He. destruct He as [ip [record [Hin [F ->]]]].
    exists ip. subst kept. cbv beta. rewrite is_kept_fate, F.
    rewrite (key_of_kept _ _ _ group_by _ _ F). auto.
  - intros [ip [Hin [K Hk]]]. subst kept. cbv beta in K.
    rewrite is_kept_fate in K.
    destruct (fate_of reader search_pattern filtered_ips ip) eqn:F;
      try discriminate.
    exists (group_key group_by record ip, group_lines group_by record ip).
    split; [apply In_entries; eauto|].
    simpl. now rewrite <- (key_of_kept _ _ _ group_by _ _ F).
Qed.

End GroupingFacts.

Lemma total_lines_extend (d : Py.dict) (k : string) (vs : list string) :
  total_lines (Py.extend d k vs) = (total_lines d + List.length vs)%nat.
Proof.
  unfold total_lines.
  induction d as [|[k0 v0] d IH]; simpl.
  - rewrite app_nil_r. reflexivity.
  - eqb_cases k k0; simpl; rewrite !length_app; [lia|].
    rewrite IH. lia.
Qed.

Lemma total_lines_build (entries : list (string * list string)) (d : Py.dict) :
  total_lines (build d entries)
  = (total_lines d + list_sum (map (fun e => List.length (snd e)) entries))%nat.
Proof.
  revert d. induction entries as [|e es IH]; intros d; simpl; [lia|].
  rewrite IH, total_lines_extend. lia.
Qed.

Lemma filter_filter (A : Type) (f g : A -> bool) (l : list A) :
  filter f (filter g l) = filter (fun x => g x && f x) l.
Proof.
  induction l as [|x l IH]; simpl; [reflexivity|].
  destruct (g x); simpl; [destruct (f x)|]; now rewrite IH.
Qed.

(** Keys are created in order of first appearance. *)
Lemma keys_build (entries : list (string * list string)) (d : Py.dict) :
  Py.keys (build d entries)
  = (Py.keys d
     ++ filter (fun k => negb (Py.contains (Py.keys d) k))
          (first_seen (map fst entries)))%list.
Proof.
  revert d. induction entries as [|[k vs] es IH]; intros d; simpl.
  - now rewrite app_nil_r.
  - rewrite IH, keys_extend.
    destruct (Py.contains (Py.keys d) k) eqn:E; simpl.
    + f_equal. rewrite filter_filter. apply filter_ext. intros y.
      eqb_cases y k; simpl; [now rewrite E | reflexivity].
    + rewrite <- app_assoc. simpl. f_equal. f_equal.
      rewrite filter_filter. apply filter_ext. intros y.
      unfold Py.contains. rewrite existsb_app. simpl.
      rewrite orb_false_r, negb_orb. apply andb_comm.
Qed.

Lemma filter_all (A : Type) (f : A -> bool) (l : list A) :
  (forall x, f x = true) -> filter f l = l.
Proof.
  intros H. induction l as [|x l IH]; simpl; [reflexivity|].
  now rewrite H, IH.
Qed.

Lemma count_occ_filter (f : string -> bool) (l : list string) (x : string) :
  count_occ string_dec (filter f l) x
  = if f x then count_occ string_dec l x else 0%nat.
Proof.
  induction l as [|y l IH]; simpl; [now destruct (f x)|].
  destruct (string_dec y x) as [->|N].
  - destruct (f x) eqn:E; simpl; [|exact IH].
    destruct (string_dec x x); [|congruence]. now rewrite IH.
  - destruct (f y); simpl; [|exact IH].
    destruct (string_dec y x); [congruence | exact IH].
Qed.

(** X1: grouping by country, state/region or city, the list under each key
    is exactly the sub-list of the input made of the kept addresses filed
    under that key, in input order and with repetitions, and no group is
    empty; a kept address is listed under its own key, as many times as it
    occurs in the input, and under no other key. *)
Theorem X1_groups_by_attribute (reader : Reader) (ip_list : list string)
  (search_pattern : option re.Pattern) (filtered_ips : list string)
  (group_by : string) (d : Py.dict) (u : list string) :
  by_attribute group_by = true ->
  get_records reader ip_list search_pattern filtered_ips group_by = Py.Ok (d, u) ->
  (forall k vs,
      In (k, vs) d ->
      vs = filter (lands_in reader search_pattern filtered_ips group_by k) ip_list /\
      vs <> []) /\
  (forall ip,
      In ip ip_list -> is_kept reader search_pattern filtered_ips ip = true ->
      exists vs,
        In (key_of reader group_by ip, vs) d /\
        count_occ string_dec vs ip = count_occ string_dec ip_list ip) /\
  (forall ip k vs, In (k, vs) d -> In ip vs -> k = key_of reader group_by ip).
Proof.
  intros G H. apply get_records_Ok in H. destruct H as [-> _].
  assert (Get : forall k,
             Py.get (build [] (flat_map
               (contribution reader search_pattern filtered_ips group_by) ip_list)) k
             = if has_key (flat_map
                  (contribution reader search_pattern filtered_ips group_by) ip_list) k
               then Some (filter (lands_in reader search_pattern filtered_ips
                                    group_by k) ip_list)
               else None).
  { intros k. rewrite get_build. simpl.
    now rewrite lines_for_by_attribute by assumption. }
  assert (Shape : forall k vs,
             In (k, vs) (build [] (flat_map
               (contribution reader search_pattern filtered_ips group_by) ip_list)) ->
             has_key (flat_map
               (contribution reader search_pattern filtered_ips group_by) ip_list) k
             = true /\
             vs = filter (lands_in reader search_pattern filtered_ips group_by k)
                    ip_list).
  { intros k vs Hin.
    apply In_get in Hin; [|apply NoDup_keys_build; constructor].
    rewrite Get in Hin.
    destruct (has_key _ k); [|discriminate]. inversion Hin. auto. }
  split; [|split].
  - intros k vs Hin. destruct (Shape k vs Hin) as [K V]. split; [exact V|].
    apply has_key_entries in K. destruct K as [ip [Hip [Kip Hk]]].
    assert (In ip vs).
    { rewrite V. apply filter_In. split; [assumption|].
      unfold lands_in. rewrite Kip, Hk. now rewrite String.eqb_refl. }
    intros E. rewrite E in H. exact H.
  - intros ip Hip Kip.
    exists (filter (lands_in reader search_pattern filtered_ips group_by
                      (key_of reader group_by ip)) ip_list).
    split.
    + apply get_Some_In. rewrite Get.
      replace (has_key _ (key_of reader group_by ip)) with true; [reflexivity|].
      symmetry. apply has_key_entries. eauto.
    + rewrite count_occ_filter. unfold lands_in.
      now rewrite Kip, String.eqb_refl.
  - intros ip k vs Hin Hip. destruct (Shape k vs Hin) as [_ V].
    rewrite V in Hip. apply filter_In in Hip. destruct Hip as [_ L].
    unfold lands_in in L. apply andb_prop in L. destruct L as [_ L].
    apply String.eqb_eq in L. now symmetry.
Qed.

Lemma X1_groups_by_attribute_witness :
  get_records sample.reader ["8.8.8.8"; "6.6.6.6"; "127.0.0.1"; "8.8.8.8"]
    None [] "country"
  = Py.Ok ([("United States (US)", ["8.8.8.8"; "8.8.8.8"]);
            ("Austria (AT)", ["6.6.6.6"])], ["127.0.0.1"]) /\
  ["8.8.8.8"; "8.8.8.8"]
  = filter (lands_in sample.reader None [] "country" "United States (US)")
      ["8.8.8.8"; "6.6.6.6"; "127.0.0.1"; "8.8.8.8"].
Proof.
  split; [reflexivity|].
  destruct (X1_groups_by_attribute sample.reader
              ["8.8.8.8"; "6.6.6.6"; "127.0.0.1"; "8.8.8.8"] None [] "country"
              [("United States (US)", ["8.8.8.8"; "8.8.8.8"]);
               ("Austria (AT)", ["6.6.6.6"])] ["127.0.0.1"]
              eq_refl eq_refl) as [Groups _].
  exact (proj1 (Groups "United States (US)" ["8.8.8.8"; "8.8.8.8"]
                  (or_introl eq_refl))).
Defined.

(** X2: whatever the grouping mode, the keys of the result mapping are
    pairwise distinct and stand in the order in which the kept addresses
    first brought them up: they are the keys of the kept input addresses
    with later repetitions dropped. *)
Theorem X2_keys_in_order_of_first_appearance (reader : Reader)
  (ip_list : list string) (search_pattern : option re.Pattern)
  (filtered_ips : list string) (group_by : string) (d : Py.dict) (u : list string) :
  get_records reader ip_list search_pattern filtered_ips group_by = Py.Ok (d, u) ->
  Py.keys d
  = first_seen (map (key_of reader group_by)
                  (filter (is_kept reader search_pattern filtered_ips) ip_list)) /\
  NoDup (Py.keys d).
Proof.
  intros H. apply get_records_Ok in H. destruct H as [-> _]. split.
  - rewrite keys_build. simpl. rewrite filter_all by reflexivity.
    now rewrite keys_of_entries.
  - apply NoDup_keys_build. constructor.
Qed.

Lemma X2_keys_in_order_of_first_appearance_witness :
  Py.keys [("Austria (AT)", ["6.6.6.6"; "6.6.6.6"]);
           ("United States (US)", ["8.8.8.8"])]
  = first_seen (map (key_of sample.reader "country")
                  (filter (is_kept sample.reader None ["1.2.3.4"])
                     ["6.6.6.6"; "1.2.3.4"; "8.8.8.8"; "6.6.6.6"])).
Proof.
  exact (proj1 (X2_keys_in_order_of_first_appearance sample.reader
                  ["6.6.6.6"; "1.2.3.4"; "8.8.8.8"; "6.6.6.6"] None ["1.2.3.4"]
                  "country"
                  [("Austria (AT)", ["6.6.6.6"; "6.6.6.6"]);
                   ("United States (US)", ["8.8.8.8"])] [] eq_refl)).
Defined.

Lemma lines_of_entries (reader : Reader) (search_pattern : option re.Pattern)
  (filtered_ips : list string) (group_by : string) (ip_list : list string) :
  list_sum (map (fun e => List.length (snd e))
              (flat_map (contribution reader search_pattern filtered_ips group_by)
                 ip_list))
  = ((if by_attribute group_by then 1 else 5)
     * List.length (filter (is_kept reader search_pattern filtered_ips) ip_list))%nat.
Proof.
  induction ip_list as [|ip rest IH]; simpl; [lia|].
  rewrite map_app, list_sum_app, IH, is_kept_fate. unfold contribution.
  destruct (fate_of reader search_pattern filtered_ips ip); simpl; try lia.
  unfold group_lines. destruct (by_attribute group_by); simpl; lia.
Qed.

(** X3: nothing is lost and nothing is made up by the grouping: the result
    mapping holds one line per kept input address when grouping by
    attribute, and five lines per kept input address when grouping by
    address, repetitions counted. *)
Theorem X3_lines_are_conserved (reader : Reader) (ip_list : list string)
  (search_pattern : option re.Pattern) (filtered_ips : list string)
  (group_by : string) (d : Py.dict) (u : list string) :
  get_records reader ip_list search_pattern filtered_ips group_by = Py.Ok (d, u) ->
  total_lines d
  = ((if by_attribute group_by then 1 else 5)
     * List.length (filter (is_kept reader search_pattern filtered_ips) ip_list))%nat.
Proof.
  intros H. apply get_records_Ok in H. destruct H as [-> _].
  rewrite total_lines_build, lines_of_entries. reflexivity.
Qed.

Lemma X3_lines_are_conserved_witness :
  total_lines [("8.8.8.8", (detail_block sample.us ++ detail_block sample.us)%list)]
  = (5 * List.length (filter (is_kept sample.reader None [])
                        ["8.8.8.8"; "127.0.0.1"; "8.8.8.8"]))%nat.
Proof.
  exact (X3_lines_are_conserved sample.reader
           ["8.8.8.8"; "127.0.0.1"; "8.8.8.8"] None [] "ip_address"
           [("8.8.8.8", (detail_block sample.us ++ detail_block sample.us)%list)]
           ["127.0.0.1"] eq_refl).
Defined.

(** X4: the unresolved list is exactly the sub-list of the input made of
    the addresses that are not excluded and for which [read_record] returned
    None, in input order; an address given twice is listed twice. *)
Theorem X4_unresolved_list (reader : Reader) (ip_list : list string)
  (search_pattern : option re.Pattern) (filtered_ips : list string)
  (group_by : string) (d : Py.dict) (u : list string) :
  get_records reader ip_list search_pattern filtered_ips group_by = Py.Ok (d, u) ->
  u = filter (is_missing reader filtered_ips) ip_list /\
  forall ip,
    count_occ string_dec u ip
    = if is_missing reader filtered_ips ip
      then count_occ string_dec ip_list ip else 0%nat.
Proof.
  intros H. apply get_records_Ok in H. destruct H as [_ ->].
  assert (E : filter (is_unresolved reader search_pattern filtered_ips) ip_list
              = filter (is_missing reader filtered_ips) ip_list)
    by (apply filter_ext; intros ip; apply is_missing_fate).
  rewrite E. split; [reflexivity|].
  intros ip. apply count_occ_filter.
Qed.

Lemma X4_unresolved_list_witness :
  ["127.0.0.1"; "999.1.1.1"; "127.0.0.1"]
  = filter (is_missing sample.reader ["10.0.0.1"])
      ["127.0.0.1"; "8.8.8.8"; "999.1.1.1"; "10.0.0.1"; "127.0.0.1"].
Proof.
  exact (proj1 (X4_unresolved_list sample.reader
                  ["127.0.0.1"; "8.8.8.8"; "999.1.1.1"; "10.0.0.1"; "127.0.0.1"]
                  None ["10.0.0.1"] "country"
                  [("United States (US)", ["8.8.8.8"])]
                  ["127.0.0.1"; "999.1.1.1"; "127.0.0.1"] eq_refl)).
Defined.

(* ================================================================== *)
(** * The two filters, seen from outside *)
(* ================================================================== *)

Lemma step_not_excluded (reader : Reader) (search_pattern : option re.Pattern)
  (filtered_ips : list string) (group_by : string)
  (d : Py.dict) (u : list string) (ip : string) :
  Py.contains filtered_ips ip = false ->
  get_records_step reader search_pattern filtered_ips group_by d u ip
  = get_records_step reader search_pattern [] group_by d u ip.
Proof. intros E. unfold get_records_step. now rewrite E. Qed.

Lemma loop_without_excluded (reader : Reader) (search_pattern : option re.Pattern)
  (filtered_ips : list string) (group_by : string) (ip_list : list string) :
  forall d u,
    get_records_loop reader search_pattern filtered_ips group_by ip_list d u
    = get_records_loop reader search_pattern [] group_by
        (filter (fun ip => negb (Py.contains filtered_ips ip)) ip_list) d u.
Proof.
  induction ip_list as [|ip rest IH]; intros d u; [reflexivity|].
  simpl. destruct (Py.contains filtered_ips ip) eqn:E; simpl.
  - unfold get_records_step. rewrite E. simpl. apply IH.
  - rewrite (step_not_excluded _ _ _ _ _ _ _ E).
    destruct (get_records_step reader search_pattern [] group_by d u ip);
      simpl; [apply IH | reflexivity].
Qed.

(** X5: excluding addresses with --filter gives the same result, or the
    same exception, as running without --filter on the input from which
    those addresses have been removed. *)
Theorem X5_exclusion_is_removal (reader : Reader) (ip_list : list string)
  (search_pattern : option re.Pattern) (filtered_ips : list string)
  (group_by : string) :
  get_records reader ip_list search_pattern filtered_ips group_by
  = get_records reader
      (filter (fun ip => negb (Py.contains filtered_ips ip)) ip_list)
      search_pattern [] group_by.
Proof. apply loop_without_excluded. Qed.

Lemma run_any_pattern (reader : Reader) (ip_list : list string)
  (p q : option re.Pattern) (filtered_ips : list string)
  (group_by : string) (d : Py.dict) (u : list string) :
  get_records reader ip_list p filtered_ips group_by = Py.Ok (d, u) ->
  exists d', get_records reader ip_list q filtered_ips group_by = Py.Ok (d', u).
Proof.
  rewrite !get_records_spec, (first_fatal_any_pattern reader q p).
  destruct (first_fatal reader p filtered_ips ip_list); [discriminate|].
  intros H. inversion H; subst. eexists. f_equal. f_equal.
  apply filter_ext. intros ip. apply is_unresolved_any_pattern.
Qed.

Lemma kept_without_pattern (reader : Reader) (p : re.Pattern)
  (filtered_ips : list string) (ip : string) :
  is_kept reader (Some p) filtered_ips ip = true ->
  is_kept reader None filtered_ips ip = true.
Proof.
  unfold is_kept.
  destruct (Py.contains filtered_ips ip); [discriminate|]. simpl.
  now destruct (reader ip).
Qed.

Lemma kept_count_without_pattern (reader : Reader) (p : re.Pattern)
  (filtered_ips : list string) (ip_list : list string) :
  (List.length (filter (is_kept reader (Some p) filtered_ips) ip_list)
   <= List.length (filter (is_kept reader None filtered_ips) ip_list))%nat.
Proof.
  induction ip_list as [|ip rest IH]; simpl; [lia|].
  destruct (is_kept reader (Some p) filtered_ips ip) eqn:E.
  - rewrite (kept_without_pattern _ _ _ _ E). simpl. lia.
  - destruct (is_kept reader None filtered_ips ip); simpl; lia.
Qed.

Lemma total_lines_of_run (reader : Reader) (ip_list : list string)
  (search_pattern : option re.Pattern) (filtered_ips : list string)
  (group_by : string) (d : Py.dict) (u : list string) :
  get_records reader ip_list search_pattern filtered_ips group_by = Py.Ok (d, u) ->
  total_lines d
  = ((if by_attribute group_by then 1 else 5)
     * List.length (filter (is_kept reader search_pattern filtered_ips) ip_list))%nat.
Proof.
  intros H. apply get_records_Ok in H. destruct H as [-> _].
  rewrite total_lines_build, lines_of_entries. reflexivity.
Qed.

(** X6: a search pattern only takes addresses away.  When the run with a
    pattern returns, the run without one returns too, with the same
    unresolved list and at least as many lines in the result mapping; every
    address aggregated with the pattern is aggregated without it; and
    without a pattern every input address that is not excluded and that the
    reader finds is aggregated. *)
Theorem X6_search_only_removes (reader : Reader) (ip_list : list string)
  (p : re.Pattern) (filtered_ips : list string)
  (group_by : string) (d : Py.dict) (u : list string) :
  get_records reader ip_list (Some p) filtered_ips group_by = Py.Ok (d, u) ->
  exists d0,
    get_records reader ip_list None filtered_ips group_by = Py.Ok (d0, u) /\
    (forall ip, aggregated group_by ip d -> aggregated group_by ip d0) /\
    (total_lines d <= total_lines d0)%nat /\
    (forall ip record,
        In ip ip_list -> ~ In ip filtered_ips -> reader ip = Py.Ok record ->
        aggregated group_by ip d0).
Proof.
  intros H.
  destruct (run_any_pattern reader ip_list (Some p) None
              filtered_ips group_by d u H) as [d0 H0].
  exists d0. split; [exact H0|]. split; [|split].
  - intros ip A.
    apply (proj1 (buckets_by_fate _ _ _ _ _ _ _ ip H)) in A.
    apply (proj1 (buckets_by_fate _ _ _ _ _ _ _ ip H0)).
    destruct A as [Hin [record F]]. split; [assumption|].
    assert (K : is_kept reader None filtered_ips ip = true)
      by (apply (kept_without_pattern reader p); rewrite is_kept_fate, F;
          reflexivity).
    rewrite is_kept_fate in K.
    destruct (fate_of reader None filtered_ips ip); try discriminate. eauto.
  - rewrite (total_lines_of_run _ _ _ _ _ _ _ H),
            (total_lines_of_run _ _ _ _ _ _ _ H0).
    apply Nat.mul_le_mono_l, kept_count_without_pattern.
  - intros ip record Hin Hex R.
    apply (proj1 (buckets_by_fate _ _ _ _ _ _ _ ip H0)).
    split; [assumption|]. exists record. apply fate_kept.
    apply contains_false in Hex. auto.
Qed.

Lemma X6_search_only_removes_witness :
  get_records sample.reader ["8.8.8.8"; "24.1.1.1"]
    (Some (re.compile sample.ca [re.IGNORECASE])) [] "country"
  = Py.Ok ([("Canada (CA)", ["24.1.1.1"])], []) /\
  exists d0,
    get_records sample.reader ["8.8.8.8"; "24.1.1.1"] None [] "country"
    = Py.Ok (d0, []) /\
    (total_lines [("Canada (CA)", ["24.1.1.1"])] <= total_lines d0)%nat.
Proof.
  split; [reflexivity|].
  destruct (X6_search_only_removes sample.reader ["8.8.8.8"; "24.1.1.1"]
              (re.compile sample.ca [re.IGNORECASE]) [] "country"
              [("Canada (CA)", ["24.1.1.1"])] [] eq_refl)
    as [d0 [H0 [_ [L _]]]].
  exists d0. split; assumption.
Defined.

(* ================================================================== *)
(** * Lookups that raise *)
(* ================================================================== *)





(* ================================================================== *)
(** * How a run ends *)
(* ================================================================== *)



Lemma report_returns (reader : Reader) (ip_list : list string)
  (search_pattern : option re.Pattern) (filtered_ips : list string)
  (group_by : string) (d : Py.dict) (u : list string) (show_not_found : bool) :
  get_records reader ip_list search_pattern filtered_ips group_by = Py.Ok (d, u) ->
  (d = [] /\
   report group_by show_not_found d u
   = Returned 0 ("No records found" :: print_not_found show_not_found u)) \/
  (exists groups,
      groups <> [] /\ Permutation groups d /\
      report group_by show_not_found d u
      = Returned 0 (print_groups groups ++ print_not_found show_not_found u)%list).
Proof.
  intros H. destruct d as [|x d'] eqn:D; [left; auto|]. right.
  destruct (sorted_dict_spec _ _ _ _ _ _ _ H) as [groups [E [P _]]].
  exists groups. split; [|split; [exact P|]].
  - intros N. subst groups. apply Permutation_nil in P. discriminate.
  - unfold report. now rewrite E.
Qed.


Lemma entries_nil (reader : Reader) (search_pattern : option re.Pattern)
  (filtered_ips : list string) (group_by : string) (ip_list : list string) :
  flat_map (contribution reader search_pattern filtered_ips group_by) ip_list = []
  <-> forall ip, In ip ip_list ->
                 is_kept reader search_pattern filtered_ips ip = false.
Proof.
  induction ip_list as [|ip rest IH]; simpl.
  - split; [intros _ ip [] | reflexivity].
  - split.
    + intros E. apply app_eq_nil in E. destruct E as [E1 E2].
      intros x [<-|Hx]; [|now apply IH].
      rewrite is_kept_fate. unfold contribution in E1.
      now destruct (fate_of reader search_pattern filtered_ips ip).
    + intros H. rewrite (proj2 IH) by (intros x Hx; apply H; now right).
      rewrite app_nil_r.
      specialize (H ip (or_introl eq_refl)). rewrite is_kept_fate in H.
      unfold contribution.
      now destruct (fate_of reader search_pattern filtered_ips ip).
Qed.

Lemma build_nil (entries : list (string * list string)) :
  build [] entries = [] <-> entries = [].
Proof.
  split; [|now intros ->].
  destruct entries as [|e es]; [reflexivity|]. intros E.
  pose proof (get_build (e :: es) [] (fst e)) as G.
  rewrite E in G. simpl in G. now rewrite String.eqb_refl in G.
Qed.

(** X9: "No records found" is printed exactly when no input address is
    kept, be it because the input is empty or because every address is
    excluded, unresolved or refused by the search pattern; the report then
    still returns 0.  When some address is kept, the first thing printed is
    the header of a group. *)
Theorem X9_no_records_found (reader : Reader) (ip_list : list string)
  (search_pattern : option re.Pattern) (filtered_ips : list string)
  (group_by : string) (d : Py.dict) (u : list string) (show_not_found : bool) :
  get_records reader ip_list search_pattern filtered_ips group_by = Py.Ok (d, u) ->
  exists stdout,
    report group_by show_not_found d u = Returned 0 stdout /\
    (hd_error stdout = Some "No records found" <->
     forall ip, In ip ip_list ->
                is_kept reader search_pattern filtered_ips ip = false) /\
    (hd_error stdout <> Some "No records found" ->
     exists key rest, In key (Py.keys d) /\ stdout = (nl ++ " " ++ key) :: rest).
Proof.
  intros H.
  assert (Empty : d = [] <->
                  forall ip, In ip ip_list ->
                             is_kept reader search_pattern filtered_ips ip = false).
  { destruct (get_records_Ok _ _ _ _ _ _ _ H) as [-> _].
    rewrite build_nil. apply entries_nil. }
  destruct (report_returns _ _ _ _ _ _ _ show_not_found H)
    as [[D R]|[groups [N [P R]]]]; rewrite R; eexists; (split; [reflexivity|]).
  - simpl. split; [split; [intros _; now apply Empty | reflexivity]|].
    intros C. now contradiction C.
  - destruct groups as [|[k vs] rest]; [congruence|]. simpl. split.
    + split; [intros E; discriminate|].
      intros K. apply Empty in K. subst d.
      apply Permutation_sym, Permutation_nil in P. discriminate.
    + intros _. exists k. eexists. split; [|reflexivity].
      apply (Permutation_in (k, vs)) in P; [|now left].
      change k with (fst (k, vs)). now apply in_map.
Qed.

Lemma X9_no_records_found_witness :
  exists stdout,
    report "ip_address" true [] ["127.0.0.1"] = Returned 0 stdout /\
    hd_error stdout = Some "No records found".
Proof.
  destruct (X9_no_records_found sample.reader ["1.2.3.4"; "8.8.8.8"; "127.0.0.1"]
              (Some (re.compile sample.ca [re.IGNORECASE])) ["1.2.3.4"]
              "ip_address" [] ["127.0.0.1"] true eq_refl)
    as [stdout [R [[_ None_kept] _]]].
  exists stdout. split; [exact R|]. apply None_kept.
  intros ip [<-|[<-|[<-|[]]]]; reflexivity.
Defined.

(* ================================================================== *)
(** * The section of unresolved addresses *)
(* ================================================================== *)

Lemma header_not_in_groups (groups : Py.dict) :
  ~ In (nl ++ "IP addresses not found:") (print_groups groups).
Proof.
  unfold print_groups. rewrite in_flat_map.
  intros [entry [_ [H|H]]].
  - unfold nl in H. simpl in H. inversion H.
  - apply in_map_iff in H. destruct H as [v [H _]].
    unfold nl in H. simpl in H. inversion H.
Qed.

Lemma header_in_not_found (show_not_found : bool) (u : list string) :
  In (nl ++ "IP addresses not found:") (print_not_found show_not_found u)
  <-> show_not_found = true /\ u <> [].
Proof.
  unfold print_not_found.
  destruct show_not_found, u as [|x u]; simpl.
  - split; [intros [] | intros [_ N]; congruence].
  - split; [intros _; split; [reflexivity | discriminate] | auto].
  - split; [intros [] | intros [E _]; discriminate].
  - split; [intros [] | intros [E _]; discriminate].
Qed.

(** X10: the heading "IP addresses not found:" is printed exactly when
    --show-missing is set and at least one address is unresolved; it then
    comes after everything else, followed by the unresolved addresses, one
    per line, in the order of the unresolved list. *)
Theorem X10_not_found_section (group_by : string) (show_not_found : bool)
  (d : Py.dict) (u : list string) (status : Z) (stdout : list string) :
  report group_by show_not_found d u = Returned status stdout ->
  (In (nl ++ "IP addresses not found:") stdout
   <-> show_not_found = true /\ u <> []) /\
  (show_not_found = true -> u <> [] ->
   exists body,
     stdout = (body ++ (nl ++ "IP addresses not found:")%string
                 :: map (fun ip => "     " ++ ip)%string u)%list /\
     ~ In (nl ++ "IP addresses not found:") body).
Proof.
  intros R.
  assert (Tail : show_not_found = true -> u <> [] ->
                 print_not_found show_not_found u
                 = (nl ++ "IP addresses not found:")
                     :: map (fun ip => "     " ++ ip) u).
  { intros -> N. unfold print_not_found. destruct u; [congruence | reflexivity]. }
  unfold report in R. destruct d as [|x d'].
  - inversion R; subst. split.
    + rewrite <- header_in_not_found. simpl. split; [|auto].
      intros [E|H]; [discriminate | exact H].
    + intros S N. exists ["No records found"]. rewrite (Tail S N). simpl.
      split; [reflexivity|]. intros [E|[]]. discriminate.
  - destruct (sorted_dict group_by (x :: d')) as [groups|e]; [|discriminate].
    inversion R; subst. split.
    + rewrite <- header_in_not_found, in_app_iff. split; [|auto].
      intros [H|H]; [now apply header_not_in_groups in H | exact H].
    + intros S N. exists (print_groups groups). rewrite (Tail S N).
      split; [reflexivity | apply header_not_in_groups].
Qed.

Lemma X10_not_found_section_witness :
  In (nl ++ "IP addresses not found:")
    ["No records found"; nl ++ "IP addresses not found:"; "     127.0.0.1"].
Proof.
  apply (proj1 (X10_not_found_section "ip_address" true [] ["127.0.0.1"] 0
                  ["No records found"; nl ++ "IP addresses not found:";
                   "     127.0.0.1"] eq_refl)).
  split; [reflexivity | discriminate].
Defined.

(* ================================================================== *)
(** * The map line, case by case *)
(* ================================================================== *)

(** X11: the map line of a record is "Null" exactly when a coordinate is
    missing or is zero; in every other case it is the Google Maps address
    with latitude and longitude in fixed notation with nine decimals, which
    the field width of 3 never pads. *)
Theorem X11_maps_url_cases (record : Model.t) :
  (maps_url record = "Null" <->
   match Location.latitude (Model.location record),
         Location.longitude (Model.location record) with
   | Some la, Some lo => Py.mant la = 0%Z \/ Py.mant lo = 0%Z
   | _, _ => True
   end) /\
  (forall la lo,
      Location.latitude (Model.location record) = Some la ->
      Location.longitude (Model.location record) = Some lo ->
      Py.mant la <> 0%Z -> Py.mant lo <> 0%Z ->
      maps_url record
      = "https://maps.google.com/maps?q=" ++ Py.format_f 9 la ++ ","
        ++ Py.format_f 9 lo ++ "&z=15").
Proof.
  rewrite maps_url_spec. split.
  - destruct (Location.latitude (Model.location record)) as [la|];
      [|tauto].
    destruct (Location.longitude (Model.location record)) as [lo|];
      [|tauto].
    destruct (Z.eqb_spec (Py.mant la) 0) as [Ea|Na]; simpl; [tauto|].
    destruct (Z.eqb_spec (Py.mant lo) 0) as [Eo|No]; simpl; [tauto|].
    split; [discriminate | tauto].
  - intros la lo -> -> Na No.
    apply Z.eqb_neq in Na, No. now rewrite Na, No.
Qed.

Lemma X11_maps_url_cases_witness :
  maps_url sample.au
  = "https://maps.google.com/maps?q=-27.500000000,153.000000000&z=15".
Proof.
  refine (proj2 (X11_maps_url_cases sample.au) _ _ eq_refl eq_refl _ _);
    discriminate.
Defined.

(* ================================================================== *)
(** * Runs over split input *)
(* ================================================================== *)

(** X12: the input can be processed in two batches.  When the runs over
    two lists both return, the run over their concatenation returns; its
    unresolved list is the two unresolved lists one after the other, its
    result mapping holds as many lines as the two mappings together, and an
    address is aggregated in it exactly when it is aggregated in one of the
    two. *)
Theorem X12_batches (reader : Reader) (search_pattern : option re.Pattern)
  (filtered_ips : list string) (group_by : string)
  (l1 l2 : list string) (d1 d2 : Py.dict) (u1 u2 : list string) :
  get_records reader l1 search_pattern filtered_ips group_by = Py.Ok (d1, u1) ->
  get_records reader l2 search_pattern filtered_ips group_by = Py.Ok (d2, u2) ->
  exists d,
    get_records reader (l1 ++ l2) search_pattern filtered_ips group_by
    = Py.Ok (d, (u1 ++ u2)%list) /\
    total_lines d = (total_lines d1 + total_lines d2)%nat /\
    forall ip,
      aggregated group_by ip d <->
      aggregated group_by ip d1 \/ aggregated group_by ip d2.
Proof.
  intros H1 H2.
  assert (H : exists d,
             get_records reader (l1 ++ l2) search_pattern filtered_ips group_by
             = Py.Ok (d, (u1 ++ u2)%list)).
  { rewrite get_records_spec in *. rewrite first_fatal_app.
    destruct (first_fatal reader search_pattern filtered_ips l1);
      [discriminate|].
    destruct (first_fatal reader search_pattern filtered_ips l2);
      [discriminate|].
    inversion H1; inversion H2; subst. rewrite filter_app. eauto. }
  destruct H as [d H]. exists d. split; [exact H|]. split.
  - rewrite (total_lines_of_run _ _ _ _ _ _ _ H),
            (total_lines_of_run _ _ _ _ _ _ _ H1),
            (total_lines_of_run _ _ _ _ _ _ _ H2).
    rewrite filter_app, length_app. lia.
  - intros ip.
    rewrite (proj1 (buckets_by_fate _ _ _ _ _ _ _ ip H)),
            (proj1 (buckets_by_fate _ _ _ _ _ _ _ ip H1)),
            (proj1 (buckets_by_fate _ _ _ _ _ _ _ ip H2)).
    rewrite in_app_iff. tauto.
Qed.

Lemma X12_batches_witness :
  exists d,
    get_records sample.reader (["8.8.8.8"; "127.0.0.1"] ++ ["999.1.1.1"; "8.8.8.8"])
      None [] "country"
    = Py.Ok (d, (["127.0.0.1"] ++ ["999.1.1.1"])%list) /\
    total_lines d = (1 + 1)%nat.
Proof.
  destruct (X12_batches sample.reader None [] "country"
              ["8.8.8.8"; "127.0.0.1"] ["999.1.1.1"; "8.8.8.8"]
              [("United States (US)", ["8.8.8.8"])]
              [("United States (US)", ["8.8.8.8"])]
              ["127.0.0.1"] ["999.1.1.1"] eq_refl eq_refl)
    as [d [H [T _]]].
  exists d. split; [exact H | exact T].
Defined.

(* ================================================================== *)
(** * What the address pattern lets through *)
(* ================================================================== *)

Import shape.

Lemma string_app_assoc (a b c : string) : (a ++ b) ++ c = a ++ (b ++ c).
Proof. induction a as [|x a IH]; simpl; [reflexivity | now rewrite IH]. Qed.

Lemma concat_empty_cons (w : string) (ws : list string) :
  String.concat EmptyString (w :: ws) = w ++ String.concat EmptyString ws.
Proof.
  destruct ws as [|y ws]; simpl; [now rewrite append_empty_r | reflexivity].
Qed.

(** A successful match consumes a word of the pattern and hands the rest
    of the input on. *)
Lemma bt_sound (A : Type) (icase : bool) (r : re.regex) :
  forall (s : string) (k : string -> option A) (a : A),
    re.bt icase r s k = Some a ->
    exists w rest, s = w ++ rest /\ denotes icase r w /\ k rest = Some a.
Proof.
  induction r as [|negate rs|r1 IH1 r2 IH2|r1 IH1 r2 IH2|r1 IH1];
    intros s k a H; simpl in H.
  - exists EmptyString, s. simpl. auto.
  - destruct s as [|c s]; [discriminate|].
    destruct (re.accepts icase negate rs c) eqn:E; [|discriminate].
    exists (String c EmptyString), s. simpl. eauto.
  - apply IH1 in H. destruct H as [w1 [rest1 [-> [D1 H]]]].
    apply IH2 in H. destruct H as [w2 [rest [-> [D2 H]]]].
    exists (w1 ++ w2), rest. rewrite string_app_assoc. simpl. eauto 10.
  - destruct (re.bt icase r1 s k) as [a1|] eqn:E.
    + inversion H; subst. apply IH1 in E.
      destruct E as [w [rest [-> [D K]]]]. exists w, rest. simpl. auto.
    + apply IH2 in H. destruct H as [w [rest [-> [D K]]]].
      exists w, rest. simpl. auto.
  - revert H. generalize (String.length s) as n. intros n. revert s.
    induction n as [|n IHn]; intros s H.
    + exists EmptyString, s. simpl. split; [reflexivity|]. split; [|exact H].
      exists []. simpl. auto.
    + match type of H with
      | match ?m with _ => _ end = _ => destruct m as [a1|] eqn:E
      end.
      * inversion H; subst. apply IH1 in E.
        destruct E as [w1 [rest1 [-> [D1 K]]]].
        destruct (Nat.ltb (String.length rest1) (String.length (w1 ++ rest1)));
          [|discriminate].
        apply IHn in K. destruct K as [w2 [rest [-> [[ws [-> F]] K]]]].
        exists (w1 ++ String.concat EmptyString ws), rest.
        rewrite string_app_assoc. split; [reflexivity|]. split; [|exact K].
        exists (w1 :: ws). rewrite concat_empty_cons. auto.
      * exists EmptyString, s. simpl. split; [reflexivity|]. split; [|exact H].
        exists []. simpl. auto.
Qed.

Lemma substring_prefix (w rest : string) :
  substring 0 (String.length (w ++ rest) - String.length rest) (w ++ rest) = w.
Proof.
  rewrite string_length_app.
  replace (String.length w + String.length rest - String.length rest)%nat
    with (String.length w) by lia.
  induction w as [|c w IH]; simpl.
  - now destruct rest.
  - now rewrite IH.
Qed.

Lemma occurs_in_tail (w s : string) (c : ascii) :
  occurs_in w s -> occurs_in w (String c s).
Proof.
  intros [before [after ->]]. exists (String c before), after. reflexivity.
Qed.

Lemma findall_from_try (icase : bool) (r : re.regex) (s : string) :
  re.findall_from icase r 0 s =
  match re.bt icase r s (fun rest => Some rest) with
  | Some rest =>
      substring 0 (String.length s - String.length rest) s ::
      match s with
      | EmptyString => []
      | String _ s' =>
          re.findall_from icase r
            (String.length s - String.length rest - 1) s'
      end
  | None =>
      match s with
      | EmptyString => []
      | String _ s' => re.findall_from icase r 0 s'
      end
  end.
Proof. destruct s; reflexivity. Qed.

(** Every string returned by the scan is a word of the pattern and occurs
    in the text. *)
Lemma findall_from_sound (icase : bool) (r : re.regex) (s : string) :
  forall skip m,
    In m (re.findall_from icase r skip s) ->
    denotes icase r m /\ occurs_in m s.
Proof.
  assert (Head : forall s rest,
             re.bt icase r s (fun rest => Some rest) = Some rest ->
             denotes icase r
               (substring 0 (String.length s - String.length rest) s) /\
             occurs_in
               (substring 0 (String.length s - String.length rest) s) s).
  { intros t rest E. apply bt_sound in E.
    destruct E as [w [rest' [Es [D K]]]]. inversion K; subst rest'.
    rewrite Es at 1 2 3 4. rewrite substring_prefix.
    split; [exact D|]. exists EmptyString, rest. now rewrite Es. }
  induction s as [|c s IH]; intros skip m H.
  - destruct skip as [|n]; [|contradiction].
    rewrite findall_from_try in H.
    destruct (re.bt icase r EmptyString (fun rest => Some rest)) as [rest|] eqn:E;
      [|contradiction].
    destruct H as [<-|[]]. now apply Head.
  - destruct skip as [|n].
    + rewrite findall_from_try in H.
      destruct (re.bt icase r (String c s) (fun rest => Some rest))
        as [rest|] eqn:E.
      * destruct H as [<-|H]; [now apply Head|].
        apply IH in H. destruct H as [D O].
        split; [exact D | now apply occurs_in_tail].
      * apply IH in H. destruct H as [D O].
        split; [exact D | now apply occurs_in_tail].
    + simpl in H. apply IH in H. destruct H as [D O].
      split; [exact D | now apply occurs_in_tail].
Qed.

Lemma digit_word (w : string) :
  denotes false (re.Chars false [("0"%char, "9"%char)]) w ->
  exists c, w = String c EmptyString /\ is_digit c = true.
Proof.
  intros [c [-> H]]. exists c. split; [reflexivity|].
  unfold re.accepts, re.in_ranges in H. simpl in H.
  now rewrite orb_false_r in H.
Qed.

Lemma dot_word (w : string) : denotes false (re.Lit ".") w -> w = ".".
Proof.
  intros [c [-> H]].
  unfold re.accepts, re.in_ranges, re.in_range, re.code in H. simpl in H.
  rewrite orb_false_r in H. apply andb_prop in H. destruct H as [H1 H2].
  apply N.leb_le in H1, H2.
  assert (E : N_of_ascii c = N_of_ascii ".") by (simpl in *; lia).
  rewrite <- (ascii_N_embedding c), E. reflexivity.
Qed.

(** The words of [[0-9]{1,3}]. *)
Lemma octet_word (o : string) :
  denotes false (re.Repeat 1 3 (re.Chars false [("0"%char, "9"%char)])) o ->
  octet o.
Proof.
  unfold re.Repeat, re.Times, re.UpTo, re.Opt.
  cbn [Nat.sub denotes].
  intros [w1 [w2 [-> [[a [b [-> [Da ->]]]] Rest]]]].
  apply digit_word in Da. destruct Da as [c1 [-> D1]].
  destruct Rest as [[x [y [-> [Dx Rest]]]] | ->].
  - apply digit_word in Dx. destruct Dx as [c2 [-> D2]].
    destruct Rest as [[p [q [-> [Dp ->]]]] | ->].
    + apply digit_word in Dp. destruct Dp as [c3 [-> D3]].
      unfold octet. simpl. rewrite D1, D2, D3. split; [lia | reflexivity].
    + unfold octet. simpl. rewrite D1, D2. split; [lia | reflexivity].
  - unfold octet. simpl. rewrite D1. split; [lia | reflexivity].
Qed.

(** The words of the address pattern. *)
Lemma pattern_word (w : string) : denotes false pattern w -> dotted_quad w.
Proof.
  unfold pattern. cbv zeta. unfold re.Times. cbn [denotes].
  intros [front [d [-> [[x1 [t1 [-> [[a [p1 [-> [Da Dp1]]]]
          [x2 [t2 [-> [[b [p2 [-> [Db Dp2]]]]
          [x3 [t3 [-> [[c [p3 [-> [Dc Dp3]]]] ->]]]]]]]]]]]] Dd]]]].
  apply dot_word in Dp1, Dp2, Dp3. subst p1 p2 p3.
  exists a, b, c, d.
  split; [|repeat split; now apply octet_word].
  rewrite append_empty_r, !string_app_assoc. reflexivity.
Qed.

Lemma octet_length (o : string) : octet o -> (1 <= String.length o <= 3)%nat.
Proof. now intros [L _]. Qed.

Lemma dotted_quad_length (w : string) :
  dotted_quad w -> (7 <= String.length w <= 15)%nat.
Proof.
  intros [a [b [c [d [-> [Oa [Ob [Oc Od]]]]]]]].
  apply octet_length in Oa, Ob, Oc, Od.
  rewrite !string_length_app. simpl. lia.
Qed.

Lemma In_firstn (A : Type) (n : nat) (l : list A) (x : A) :
  In x (firstn n l) -> In x l.
Proof.
  intros H. rewrite <- (firstn_skipn n l). apply in_or_app. now left.
Qed.

Lemma slice_to_incl (A : Type) (l : list A) (stop : option Z) (x : A) :
  In x (Py.slice_to l stop) -> In x l.
Proof.
  unfold Py.slice_to. destruct stop as [n|]; [|auto].
  destruct (n <? 0)%Z; apply In_firstn.
Qed.

(** X13: every address taken from a file is a piece of the file's text of
    the form d.d.d.d, each d being one to three decimal digits, hence of 7
    to 15 characters; no other text of the file reaches the lookup. *)
Theorem X13_addresses_from_a_file (args : Args.t) (file : Path.t)
  (ip_list : list string) :
  Py.truthy_opt Py.truthy_str (Args.ip args) = false ->
  Args.file args = Some file ->
  ip_list_of args = inr ip_list ->
  forall ip,
    In ip ip_list ->
    dotted_quad ip /\
    occurs_in ip (Path.read_text file) /\
    (7 <= String.length ip <= 15)%nat.
Proof.
  intros Hip Hfile H ip Hin.
  unfold ip_list_of in H. rewrite Hip, Hfile in H.
  destruct (negb (Path.is_file file)); [discriminate|].
  destruct (Path.st_size file =? 0)%Z; [discriminate|].
  inversion H; subst ip_list. clear H.
  apply slice_to_incl in Hin.
  apply findall_from_sound in Hin. destruct Hin as [D O].
  apply pattern_word in D.
  split; [exact D|]. split; [exact O|]. now apply dotted_quad_length.
Qed.

Lemma X13_addresses_from_a_file_witness :
  ip_list_of (sample.args_file 2) = inr ["1.1.1.1"; "2.2.2.2"] /\
  dotted_quad "2.2.2.2" /\ occurs_in "2.2.2.2" sample.ten_addresses.
Proof.
  split; [reflexivity|].
  destruct (X13_addresses_from_a_file (sample.args_file 2) sample.log_file
              ["1.1.1.1"; "2.2.2.2"] eq_refl eq_refl eq_refl "2.2.2.2"
              (or_intror (or_introl eq_refl))) as [D [O _]].
  split; [exact D | exact O].
Defined.

(* ================================================================== *)
(** * A single address on the command line *)
(* ================================================================== *)

Lemma sorted_dict_single (group_by : string) (k : string) (lines : list string)
  (v : Py.value) :
  sort_key group_by (k, lines) = Py.Ok v ->
  sorted_dict group_by [(k, lines)] = Py.Ok [(k, lines)].
Proof.
  intros K. unfold sorted_dict, Py.sorted_reverse. simpl. now rewrite K.
Qed.

(** X14: with --ip, an address that is not excluded, that the reader finds
    and that passes the search pattern is the whole report: [main] returns 0
    after printing the group header and under it the five lines of the
    detail block (grouping by address) or the address itself (grouping by
    attribute); --limit, --show-missing and the address pattern play no
    part. *)
Theorem X14_single_address (open_reader : string -> Py.result Reader)
  (args : Args.t) (reader : Reader) (ip : string) (record : Model.t) :
  Args.ip args = Some ip -> ip <> EmptyString ->
  open_reader (Args.db args) = Py.Ok reader ->
  ~ In ip (filtered_ips_of args) ->
  reader ip = Py.Ok record ->
  add_record (search_pattern_of args) record ip = true ->
  main open_reader args
  = Returned 0
      ((nl ++ " " ++ group_key (Args.group args) record ip)
       :: map (fun value => "     " ++ value)
            (group_lines (Args.group args) record ip)).
Proof.
  intros Hip Hne Ho Hex R K.
  assert (L : ip_list_of args = inr [ip]).
  { unfold ip_list_of. rewrite Hip. simpl.
    destruct ip; [congruence | reflexivity]. }
  assert (F : fate_of reader (search_pattern_of args) (filtered_ips_of args) ip
              = Kept record).
  { apply fate_kept. apply contains_false in Hex. auto. }
  assert (G : get_records reader [ip] (search_pattern_of args)
                (filtered_ips_of args) (Args.group args)
              = Py.Ok ([(group_key (Args.group args) record ip,
                         group_lines (Args.group args) record ip)], [])).
  { unfold get_records. simpl. rewrite step_fate, F. reflexivity. }
  unfold main. rewrite L, Ho. simpl. rewrite G. unfold report.
  assert (S : exists v,
             sort_key (Args.group args)
               (group_key (Args.group args) record ip,
                group_lines (Args.group args) record ip) = Py.Ok v).
  { unfold sort_key, group_lines, by_attribute.
    destruct (Py.contains ["country"; "state/region"; "city"] (Args.group args));
      simpl; eauto. }
  destruct S as [v S]. rewrite (sorted_dict_single _ _ _ _ S).
  unfold print_groups, print_not_found. simpl.
  rewrite andb_false_r. simpl. now rewrite !app_nil_r.
Qed.

Lemma X14_single_address_witness :
  main (fun _ => Py.Ok sample.reader) (sample.args_ip "24.1.1.1" (Some sample.ca))
  = Returned 0
      [nl ++ " 24.1.1.1";
       "     Maps URL:   https://maps.google.com/maps?q=43.750000000,-79.500000000&z=15";
       "     Radius(km): 20";
       "     Country:    Canada (CA)";
       "     State:      Ontario";
       "     City:       Toronto"].
Proof.
  refine (X14_single_address (fun _ => Py.Ok sample.reader)
            (sample.args_ip "24.1.1.1" (Some sample.ca)) sample.reader
            "24.1.1.1" sample.canada eq_refl _ eq_refl _ eq_refl eq_refl).
  - discriminate.
  - intros [].
Defined.
